(** * HITbackend: the request handlers of [server.js]

    A shallow embedding of the Express handlers of the hiring-pipeline
    backend, together with the parts of their environment they rely on:
    JavaScript numbers (binary64, with their reading from and writing to
    text), values and coercions, the [Date] arithmetic of ECMA-262,
    the Mongoose document layer (schemas, casting, validation, queries),
    the Drive upload client and the Sheets row appender.

    Handlers are pure functions from a world (drive, sheets, database,
    clock) and a request to a response and a new world.  The external
    providers are interfaces ([BlobStore], [RowAppender]); the database
    is an in-memory model of the three collections. *)

From Stdlib Require Import ZArith Lia Ascii.
From Stdlib Require Import Floats.SpecFloat.
From stdpp Require Import base option list gmap strings pretty.

Set Warnings "-register-all".
#[local] Open Scope Z_scope.

(* ================================================================== *)
(** ** Numbers: IEEE 754 binary64 (ECMA-262, 6.1.6.1) *)
(* ================================================================== *)

Module Number.

(** A Number is a double: a signed zero, an infinity, NaN, or
    [(-1)^s * m * 2^e] with [m] below [2^53], in the canonical form of
    the format. *)
Definition number : Type := spec_float.

Definition prec : Z := 53.
Definition emax : Z := 1024.

Definition NaN : number := S754_nan.
Definition zero : number := S754_zero false.

Definition isNaN (x : number) : bool :=
  match x with S754_nan => true | _ => false end.

Definition is_zero (x : number) : bool :=
  match x with S754_zero _ => true | _ => false end.

Definition eqb (x y : number) : bool :=
  match x, y with
  | S754_zero s, S754_zero s' => Bool.eqb s s'
  | S754_infinity s, S754_infinity s' => Bool.eqb s s'
  | S754_nan, S754_nan => true
  | S754_finite s m e, S754_finite s' m' e' =>
      Bool.eqb s s' && Pos.eqb m m' && Z.eqb e e'
  | _, _ => false
  end.

(** The double nearest to an integer (ties to even). *)
Definition of_Z (z : Z) : number := binary_normalize prec emax z 0 false.

(** The double nearest to [d * 10^p], for [0 <= d], with the sign
    [neg].  Beyond [10^310] every value rounds to an infinity, below
    [10^-400] to a zero; in between the product or the quotient is
    rounded once. *)
Definition of_decimal (neg : bool) (d p : Z) : number :=
  if d <=? 0 then S754_zero neg
  else if 0 <=? p then
    if 310 <? p then S754_infinity neg
    else binary_normalize prec emax (cond_Zopp neg (d * 10 ^ p)) 0 neg
  else
    if Z.log2 d + 401 <? - p then S754_zero neg
    else
      let '(m, e, l) := SFdiv_core_binary prec emax d 0 (10 ^ (- p)) 0 in
      binary_round_aux prec emax neg m e l.

(** *** StringToNumber (7.1.4.1.1) *)

(** The bytes of a string, which is held in UTF-8. *)
Definition bytes (s : string) : list Z :=
  (λ c, Z.of_N (N_of_ascii c)) <$> String.list_ascii_of_string s.

(** Its code points; a byte that starts no sequence reads as U+FFFD. *)
Fixpoint code_points (l : list Z) : list Z :=
  match l with
  | [] => []
  | b :: r =>
      if b <? 0x80 then b :: code_points r
      else if b <? 0xC0 then 0xFFFD :: code_points r
      else if b <? 0xE0 then
        match r with
        | b1 :: r1 => ((b - 0xC0) * 64 + (b1 - 0x80)) :: code_points r1
        | [] => [0xFFFD]
        end
      else if b <? 0xF0 then
        match r with
        | b1 :: b2 :: r2 =>
            ((b - 0xE0) * 4096 + (b1 - 0x80) * 64 + (b2 - 0x80))
              :: code_points r2
        | _ => [0xFFFD]
        end
      else
        match r with
        | b1 :: b2 :: b3 :: r3 =>
            ((b - 0xF0) * 262144 + (b1 - 0x80) * 4096 + (b2 - 0x80) * 64
               + (b3 - 0x80)) :: code_points r3
        | _ => [0xFFFD]
        end
  end.

(** StrWhiteSpaceChar: white space and line terminators. *)
Definition is_white_space (c : Z) : bool :=
  bool_decide
    (c ∈ [ 0x9; 0xA; 0xB; 0xC; 0xD; 0x20; 0xA0; 0x1680; 0x2028; 0x2029;
           0x202F; 0x205F; 0x3000; 0xFEFF ])
  || ((0x2000 <=? c) && (c <=? 0x200A)).

Fixpoint trim_start (l : list Z) : list Z :=
  match l with
  | c :: r => if is_white_space c then trim_start r else l
  | [] => []
  end.

Definition trim (l : list Z) : list Z :=
  reverse (trim_start (reverse (trim_start l))).

(** The value of a digit in a radix up to 16. *)
Definition digit_value (radix c : Z) : option Z :=
  let v :=
    if (48 <=? c) && (c <=? 57) then c - 48
    else if (97 <=? c) && (c <=? 102) then c - 87
    else if (65 <=? c) && (c <=? 70) then c - 55
    else radix in
  if v <? radix then Some v else None.

(** The leading digits of [l]: their value on top of [acc], their
    count on top of [n], and what follows them. *)
Fixpoint leading_digits (l : list Z) (acc n : Z) : Z * Z * list Z :=
  match l with
  | c :: r =>
      match digit_value 10 c with
      | Some v => leading_digits r (10 * acc + v) (n + 1)
      | None => (acc, n, l)
      end
  | [] => (acc, n, [])
  end.

(** A numeral that is digits only, in the given radix. *)
Fixpoint all_digits (radix : Z) (l : list Z) (acc : Z) : option Z :=
  match l with
  | [] => Some acc
  | c :: r => v ← digit_value radix c; all_digits radix r (radix * acc + v)
  end.

(** NonDecimalIntegerLiteral without its prefix: at least one digit. *)
Definition non_decimal (radix : Z) (l : list Z) : number :=
  match l with
  | [] => NaN
  | _ => from_option of_Z NaN (all_digits radix l 0)
  end.

(** ExponentPart, after its [e]: an optional sign and at least one
    digit, up to the end. *)
Definition exponent_part (l : list Z) : option Z :=
  let '(neg, r) :=
    match l with
    | 43 :: r => (false, r)
    | 45 :: r => (true, r)
    | _ => (false, l)
    end in
  match leading_digits r 0 0 with
  | (e, n, []) => if n =? 0 then None else Some (cond_Zopp neg e)
  | _ => None
  end.

(** StrUnsignedDecimalLiteral. *)
Definition unsigned_decimal (neg : bool) (l : list Z) : number :=
  if bool_decide (l = bytes "Infinity") then S754_infinity neg
  else
    let '(i, ni, r1) := leading_digits l 0 0 in
    let '(d, nf, r2) :=
      match r1 with
      | 46 :: r => leading_digits r i 0
      | _ => (i, 0, r1)
      end in
    if (ni =? 0) && (nf =? 0) then NaN
    else
      match r2 with
      | [] => of_decimal neg d (- nf)
      | c :: r3 =>
          if (c =? 101) || (c =? 69)
          then from_option (λ e, of_decimal neg d (e - nf)) NaN
                 (exponent_part r3)
          else NaN
      end.

(** StringNumericLiteral: white space around an optional numeral. *)
Definition StringToNumber (s : string) : number :=
  match trim (code_points (bytes s)) with
  | [] => zero
  | 48 :: 120 :: r | 48 :: 88 :: r => non_decimal 16 r
  | 48 :: 111 :: r | 48 :: 79 :: r => non_decimal 8 r
  | 48 :: 98 :: r | 48 :: 66 :: r => non_decimal 2 r
  | 43 :: r => unsigned_decimal false r
  | 45 :: r => unsigned_decimal true r
  | l => unsigned_decimal false l
  end.

(** *** Number::toString, radix 10 (6.1.6.1.20) *)

(** [floor (P / Q / 10^j)] *)
Definition scaled (P Q j : Z) : Z :=
  if 0 <=? j then P / (Q * 10 ^ j) else (P * 10 ^ (- j)) / Q.

(** The least [n], from [n0] on, with [P / Q < 10^n]. *)
Fixpoint decimal_exponent (fuel : nat) (P Q n0 : Z) : Z :=
  match fuel with
  | O => n0
  | S fuel' =>
      if scaled P Q n0 =? 0 then n0 else decimal_exponent fuel' P Q (n0 + 1)
  end.

(** Where to look for it: [m * 2^e] is at least [2^b] for
    [b = log2 m + e], and [log10 2] is just above [0.30102]. *)
Definition decimal_exponent_from (m : positive) (e : Z) : Z :=
  (Z.log2 (Z.pos m) + e) * 30102 / 100000 - 1.

(** Whether [P / Q] is nearer to [s * 10^j] than to [(s + 1) * 10^j];
    half way goes to the even one. *)
Definition nearer_below (P Q s j : Z) : bool :=
  let '(a, b) :=
    if 0 <=? j then (2 * P, (2 * s + 1) * Q * 10 ^ j)
    else (2 * P * 10 ^ (- j), (2 * s + 1) * Q) in
  (a <? b) || ((a =? b) && Z.even s).

(** The shortest digits: the least [k], from [k0] on, for which some
    [s] of [k] digits has [s * 10^(n-k)] read back as [x]; of two such
    [s] the one nearer to [x]. *)
Fixpoint shortest (fuel : nat) (x : number) (P Q n k0 : Z) : Z * Z :=
  let lo := scaled P Q (n - k0) in
  let hi := lo + 1 in
  let reads s := eqb (of_decimal false s (n - k0)) x in
  let pick s := if s =? 10 ^ k0 then (s / 10, n + 1) else (s, n) in
  match fuel with
  | O => (lo, n)
  | S fuel' =>
      match reads lo, reads hi with
      | true, true => pick (if nearer_below P Q lo (n - k0) then lo else hi)
      | true, false => pick lo
      | false, true => pick hi
      | false, false => shortest fuel' x P Q n (k0 + 1)
      end
  end.

Definition zeros (n : Z) : string :=
  String.string_of_list_ascii (replicate (Z.to_nat n) "0"%char).

(** The digits [ds] of [s] and the exponent [n], written out. *)
Definition written (ds : string) (n : Z) : string :=
  let k := Z.of_nat (String.length ds) in
  if (k <=? n) && (n <=? 21) then ds +:+ zeros (n - k)
  else if (0 <? n) && (n <=? 21) then
    String.substring 0 (Z.to_nat n) ds +:+ "."
      +:+ String.substring (Z.to_nat n) (Z.to_nat (k - n)) ds
  else if (-6 <? n) && (n <=? 0) then "0." +:+ zeros (- n) +:+ ds
  else
    (if k =? 1 then ds
     else String.substring 0 1 ds +:+ "." +:+ String.substring 1 (Z.to_nat (k - 1)) ds)
      +:+ "e" +:+ (if 0 <=? n - 1 then "+" else "-")
      +:+ pretty (Z.abs (n - 1)).

Definition toString (x : number) : string :=
  match x with
  | S754_nan => "NaN"
  | S754_zero _ => "0"
  | S754_infinity s => if s then "-Infinity" else "Infinity"
  | S754_finite s m e =>
      let '(P, Q) :=
        if 0 <=? e then (Z.pos m * 2 ^ e, 1) else (Z.pos m, 2 ^ (- e)) in
      let n := decimal_exponent 8 P Q (decimal_exponent_from m e) in
      let '(digits, n') := shortest 17 (S754_finite false m e) P Q n 1 in
      (if s then "-" else "") +:+ written (pretty digits) n'
  end.

(** *** ToIntegerOrInfinity, for the finite numbers *)
Definition truncate (x : number) : option Z :=
  match x with
  | S754_zero _ => Some 0
  | S754_finite s m e =>
      Some (cond_Zopp s (if 0 <=? e then Z.pos m * 2 ^ e
                         else Z.pos m / 2 ^ (- e)))
  | _ => None
  end.

End Number.

(* ================================================================== *)
(** ** JavaScript values *)
(* ================================================================== *)

Module JS.
Import Number.

(** The values a parsed request body can hold (JSON, or text fields of a
    multipart form). *)
Inductive value : Type :=
| Undefined
| Null
| Bool (b : bool)
| Num (x : number)
| Str (s : string)
| Arr (l : list value)
| Obj (o : gmap string value).

(** ToBoolean: [false], the zeros and NaN, the empty string, [null] and
    [undefined] are falsy; every object, also the empty array, is
    truthy. *)
Definition truthy (v : value) : bool :=
  match v with
  | Undefined | Null => false
  | Bool b => b
  | Num x => negb (is_zero x || isNaN x)
  | Str s => negb (String.eqb s "")
  | Arr _ | Obj _ => true
  end.

(** [a || b] *)
Definition or (a b : value) : value := if truthy a then a else b.

(** [!a] *)
Definition not (a : value) : bool := negb (truthy a).

(** [Array.isArray(v)] *)
Definition isArray (v : value) : bool :=
  match v with Arr _ => true | _ => false end.

(** ToString.  An array prints as its elements joined by a comma, with
    [null] and [undefined] elements printed as the empty string; a plain
    object prints as [[object Object]]. *)
Fixpoint ToString (v : value) : string :=
  match v with
  | Undefined => "undefined"
  | Null => "null"
  | Bool true => "true"
  | Bool false => "false"
  | Num x => Number.toString x
  | Str s => s
  | Arr l =>
      String.concat ","
        (map (fun x => match x with
                       | Undefined | Null => ""
                       | _ => ToString x
                       end) l)
  | Obj _ => "[object Object]"
  end.

(** What [Array.prototype.join] prints for one element. *)
Definition element_string (v : value) : string :=
  match v with
  | Undefined | Null => ""
  | _ => ToString v
  end.

(** [l.join(sep)] *)
Definition join (sep : string) (l : list value) : string :=
  String.concat sep (element_string <$> l).

(** Reading a property of an object: an absent key reads [undefined]. *)
Definition get (o : gmap string value) (k : string) : value :=
  default Undefined (o !! k).

(** Destructuring with a default, [const { k = d } = o]: the default
    applies when the property reads [undefined]. *)
Definition get_or (o : gmap string value) (k : string) (d : value) : value :=
  match get o k with
  | Undefined => d
  | v => v
  end.

(** [s.split(c)] for a one-character separator [c]. *)
Fixpoint split (c : ascii) (s : string) : list string :=
  match s with
  | EmptyString => [EmptyString]
  | String a s' =>
      if Ascii.eqb a c then EmptyString :: split c s'
      else match split c s' with
           | h :: t => String a h :: t
           | [] => [String a EmptyString]
           end
  end.

End JS.
Export JS.

(* ================================================================== *)
(** ** Date: time values and [toISOString] (ECMA-262, 21.4.1) *)
(* ================================================================== *)

Module Date.

Definition msPerDay : Z := 86400000.
Definition msPerHour : Z := 3600000.
Definition msPerMinute : Z := 60000.
Definition msPerSecond : Z := 1000.

Definition Day (t : Z) : Z := t / msPerDay.
Definition TimeWithinDay (t : Z) : Z := t mod msPerDay.

Definition leap_year (y : Z) : bool :=
  if decide (y mod 4 ≠ 0) then false
  else if decide (y mod 100 ≠ 0) then true
  else if decide (y mod 400 ≠ 0) then false
  else true.

Definition DaysInYear (y : Z) : Z := if leap_year y then 366 else 365.

Definition DayFromYear (y : Z) : Z :=
  365 * (y - 1970) + (y - 1969) / 4 - (y - 1901) / 100 + (y - 1601) / 400.

(** The largest [y] with [DayFromYear y <= d]: the estimate from the
    mean length of a year is off by at most one. *)
Definition year_of_day (d : Z) : Z :=
  let y0 := 1970 + (400 * d) / 146097 in
  if decide (DayFromYear (y0 + 1) ≤ d) then y0 + 1
  else if decide (DayFromYear y0 ≤ d) then y0
  else y0 - 1.

Definition YearFromTime (t : Z) : Z := year_of_day (Day t).

Definition DayWithinYear (t : Z) : Z := Day t - DayFromYear (YearFromTime t).

Definition InLeapYear (t : Z) : Z :=
  if leap_year (YearFromTime t) then 1 else 0.

(** Months are numbered from 0 (January). *)
Definition MonthFromTime (t : Z) : Z :=
  let d := DayWithinYear t in
  let l := InLeapYear t in
  if decide (d < 31) then 0
  else if decide (d < 59 + l) then 1
  else if decide (d < 90 + l) then 2
  else if decide (d < 120 + l) then 3
  else if decide (d < 151 + l) then 4
  else if decide (d < 181 + l) then 5
  else if decide (d < 212 + l) then 6
  else if decide (d < 243 + l) then 7
  else if decide (d < 273 + l) then 8
  else if decide (d < 304 + l) then 9
  else if decide (d < 334 + l) then 10
  else 11.

Definition DateFromTime (t : Z) : Z :=
  let d := DayWithinYear t in
  let l := InLeapYear t in
  match MonthFromTime t with
  | 0 => d + 1
  | 1 => d - 30
  | 2 => d - 58 - l
  | 3 => d - 89 - l
  | 4 => d - 119 - l
  | 5 => d - 150 - l
  | 6 => d - 180 - l
  | 7 => d - 211 - l
  | 8 => d - 242 - l
  | 9 => d - 272 - l
  | 10 => d - 303 - l
  | _ => d - 333 - l
  end.

Definition HourFromTime (t : Z) : Z := (t / msPerHour) mod 24.
Definition MinFromTime (t : Z) : Z := (t / msPerMinute) mod 60.
Definition SecFromTime (t : Z) : Z := (t / msPerSecond) mod 60.
Definition msFromTime (t : Z) : Z := t mod msPerSecond.

Definition digit_chars : list ascii :=
  ["0"; "1"; "2"; "3"; "4"; "5"; "6"; "7"; "8"; "9"]%char.

Definition digit (d : Z) : ascii := nth (Z.to_nat d) digit_chars "0"%char.

(** The last [width] decimal digits of [n], most significant first. *)
Fixpoint pad (width : nat) (n : Z) : string :=
  match width with
  | O => EmptyString
  | S k => pad k (n / 10) +:+ String (digit (n mod 10)) EmptyString
  end.

(** The year of the ISO format: four digits from 0 to 9999, otherwise a
    sign and six digits. *)
Definition iso_year (y : Z) : string :=
  if decide (0 ≤ y ≤ 9999) then pad 4 y
  else (if decide (y < 0) then "-" else "+") +:+ pad 6 (Z.abs y).

Definition iso_date (t : Z) : string :=
  iso_year (YearFromTime t) +:+ "-" +:+ pad 2 (MonthFromTime t + 1)
    +:+ "-" +:+ pad 2 (DateFromTime t).

Definition iso_time (t : Z) : string :=
  pad 2 (HourFromTime t) +:+ ":" +:+ pad 2 (MinFromTime t) +:+ ":"
    +:+ pad 2 (SecFromTime t) +:+ "." +:+ pad 3 (msFromTime t).

(** [new Date(t).toISOString()]: [YYYY-MM-DDTHH:mm:ss.sssZ], in UTC. *)
Definition toISOString (t : Z) : string :=
  iso_date t +:+ "T" +:+ iso_time t +:+ "Z".

End Date.

(* ================================================================== *)
(** ** Mongoose: schemas, casting, validation, queries

    The document layer the handlers call into, as its documentation
    describes it (Mongoose 5 and later): a schema lists typed paths;
    constructing a document casts each supplied value to its path's type
    and fills defaults; [save] validates and inserts; [findById] casts
    its argument to an ObjectId; [findOne] returns the first match in
    insertion order; [populate] follows a path's [ref]. *)
(* ================================================================== *)

Module Mongoose.
Import Number.

(** What a document holds at a path: a plain value or a Date. *)
Inductive bson : Type :=
| BVal (v : value)
| BDate (t : Z).

Coercion BVal : value >-> bson.

Inductive SchemaType : Type :=
| SString
| SNumber
| SDate
| SArrayOf (elem : SchemaType)   (* [String] is [SArrayOf SString] *)
| SArrayMixed.                   (* Array *)

Record SchemaPath : Type := {
  path_type : SchemaType;
  path_required : bool;
  path_default : option (Z → bson);   (* a function of the clock *)
  path_ref : option string
}.

Definition Schema : Type := list (string * SchemaPath).

(** A path declared by its type alone, as in [jobId: String]. *)
Definition plain (t : SchemaType) : SchemaPath :=
  {| path_type := t; path_required := false;
     path_default := None; path_ref := None |}.

Definition schema_path (sch : Schema) (name : string) : option SchemaPath :=
  snd <$> find (fun p => String.eqb (fst p) name) sch.

(** *** Casting.  [None] is a CastError. *)

(** String: [null] and [undefined] pass through; numbers and booleans
    are printed; an object is taken for a document and stands for its
    string [_id] when it has one; other objects and arrays fail. *)
Definition castString (v : value) : option value :=
  match v with
  | Undefined | Null | Str _ => Some v
  | Num _ | Bool _ => Some (Str (ToString v))
  | Arr _ => None
  | Obj o =>
      match o !! "_id" with
      | Some (Str s) => if String.eqb s "" then None else Some (Str s)
      | _ => None
      end
  end.

(** Number: a value that carries an [_id] stands for it; [null] and
    [undefined] pass through; the empty string is [null]; strings and
    booleans go through [Number(...)]; NaN fails, and so do arrays and
    the other objects. *)
Definition castNumber (v : value) : option value :=
  let val :=
    match v with
    | Obj o =>
        match o !! "_id" with
        | None | Some Undefined => v
        | Some id => id
        end
    | _ => v
    end in
  match val with
  | Undefined | Null => Some val
  | Str s =>
      if String.eqb s "" then Some Null
      else
        let x := StringToNumber s in
        if isNaN x then None else Some (Num x)
  | Bool b => Some (Num (of_Z (if b then 1 else 0)))
  | Num x => if isNaN x then None else Some val
  | Arr _ | Obj _ => None
  end.

(** Casting to a type whose values are plain.  A value that is not an
    array is cast to an array path as the one-element array holding it. *)
Fixpoint cast_plain (t : SchemaType) (v : value) : option value :=
  match t with
  | SString => castString v
  | SNumber => castNumber v
  | SDate => None
  | SArrayOf elem =>
      match v with
      | Undefined | Null => Some v
      | Arr l => Arr <$> mapM (cast_plain elem) l
      | _ => (fun x => Arr [x]) <$> cast_plain elem v
      end
  | SArrayMixed =>
      match v with
      | Undefined | Null | Arr _ => Some v
      | _ => Some (Arr [v])
      end
  end.

(** Date: a number is a time value, cut to an integer, and is a date
    within 8.64e15 ms of the epoch; date strings are outside this model
    (no handler supplies a Date path). *)
Definition castDate (v : value) : option bson :=
  match v with
  | Undefined | Null => Some (BVal Null)
  | Str s => if String.eqb s "" then Some (BVal Null) else None
  | Num x =>
      t ← truncate x;
      if decide (Z.abs t ≤ 8640000000000000) then Some (BDate t) else None
  | _ => None
  end.

Definition cast (t : SchemaType) (v : value) : option bson :=
  match t with
  | SDate => castDate v
  | _ => BVal <$> cast_plain t v
  end.

(** *** Documents *)

Record Document : Type := {
  doc_id : N;                         (* the ObjectId [_id] *)
  doc_fields : gmap string bson;
  doc_errors : list string            (* paths whose value failed to cast *)
}.

Definition is_array_type (t : SchemaType) : bool :=
  match t with SArrayOf _ | SArrayMixed => true | _ => false end.

(** Setting one schema path from the constructor's argument.  A value
    that reads [undefined] leaves the path to its default; array paths
    default to the empty array. *)
Definition set_path (now : Z) (obj : gmap string value)
    (acc : gmap string bson * list string) (p : string * SchemaPath)
    : gmap string bson * list string :=
  let '(fields, errs) := acc in
  let '(name, spec) := p in
  match get obj name with
  | Undefined =>
      match path_default spec with
      | Some f => (<[name := f now]> fields, errs)
      | None =>
          if is_array_type (path_type spec)
          then (<[name := BVal (Arr [])]> fields, errs)
          else (fields, errs)
      end
  | v =>
      match cast (path_type spec) v with
      | Some b => (<[name := b]> fields, errs)
      | None => (fields, errs ++ [name])
      end
  end.

(** [new Model(obj)]: keys of [obj] that are not schema paths are
    dropped (strict mode). *)
Definition new_document (sch : Schema) (now : Z) (id : N)
    (obj : gmap string value) : Document :=
  let '(fields, errs) := foldl (set_path now obj) (∅, []) sch in
  {| doc_id := id; doc_fields := fields; doc_errors := errs |}.

(** The [required] validator: a string must be non-empty, any other
    value must be neither [null] nor [undefined] (an empty array
    passes). *)
Definition check_required (t : SchemaType) (b : option bson) : bool :=
  match b with
  | None | Some (BVal Undefined) | Some (BVal Null) => false
  | Some (BVal (Str s)) =>
      match t with SString => negb (String.eqb s "") | _ => true end
  | Some _ => true
  end.

Definition path_valid (d : Document) (p : string * SchemaPath) : bool :=
  negb (path_required (snd p))
  || check_required (path_type (snd p)) (doc_fields d !! fst p).

Definition validate (sch : Schema) (d : Document) : bool :=
  match doc_errors d with
  | [] => forallb (path_valid d) sch
  | _ => false
  end.

(** [doc.save()]: [None] is a rejected promise (ValidationError). *)
Definition save (sch : Schema) (coll : list Document) (d : Document)
    : option (list Document) :=
  if validate sch d then Some (coll ++ [d]) else None.

(** *** ObjectIds: 24 hexadecimal digits *)

Definition hex_chars : list ascii :=
  ["0"; "1"; "2"; "3"; "4"; "5"; "6"; "7"; "8"; "9";
   "a"; "b"; "c"; "d"; "e"; "f"]%char.

Fixpoint hex (width : nat) (n : N) : string :=
  match width with
  | O => EmptyString
  | S k =>
      hex k (n / 16)%N
        +:+ String (nth (N.to_nat (n mod 16)%N) hex_chars "0"%char) EmptyString
  end.

Definition hex_value (c : ascii) : option N :=
  let n := N_of_ascii c in
  if decide (48 ≤ n ≤ 57)%N then Some (n - 48)%N
  else if decide (97 ≤ n ≤ 102)%N then Some (n - 87)%N
  else if decide (65 ≤ n ≤ 70)%N then Some (n - 55)%N
  else None.

Fixpoint parse_hex (s : string) (acc : N) : option N :=
  match s with
  | EmptyString => Some acc
  | String c s' => d ← hex_value c; parse_hex s' (16 * acc + d)%N
  end.

(** A string is an ObjectId when it is 24 hexadecimal digits (bson 5 and
    later; earlier releases also took any string of 12 characters). *)
Definition castObjectId (s : string) : option N :=
  if decide (String.length s = 24%nat) then parse_hex s 0%N else None.

(** *** Queries *)

(** [Model.findById(id)]: the outer [None] is a rejected promise
    (CastError), the inner one is [null]. *)
Definition findById (coll : list Document) (id : string)
    : option (option Document) :=
  oid ← castObjectId id;
  Some (find (fun d => N.eqb (doc_id d) oid) coll).

Definition field_is (d : Document) (path v : string) : bool :=
  match doc_fields d !! path with
  | Some (BVal (Str s)) => String.eqb s v
  | _ => false
  end.

(** [Model.findOne({ path: v })] on a String path: the first document,
    in insertion order, whose [path] is [v]. *)
Definition findOne (coll : list Document) (path v : string) : option Document :=
  find (fun d => field_is d path v) coll.

Definition bson_json (b : bson) : value :=
  match b with
  | BVal v => v
  | BDate t => Str (Date.toISOString t)
  end.

(** The properties of [doc.toJSON()]: the id, the version key and the
    fields. *)
Definition json_fields (d : Document) : gmap string value :=
  <["_id" := Str (hex 24 (doc_id d))]>
    (<["__v" := Num zero]> (bson_json <$> doc_fields d)).

(** [doc.toJSON()], what [res.json(doc)] sends. *)
Definition toJSON (d : Document) : value := Obj (json_fields d).

(** The fields a populated document keeps: [_id] and the selected ones. *)
Definition select (sel : list string) (d : Document) : value :=
  Obj (<["_id" := Str (hex 24 (doc_id d))]>
         (bson_json <$> filter (fun kv => bool_decide (kv.1 ∈ sel)) (doc_fields d))).

(** [query.populate(path, sel)]: the model to read from is the one the
    path's [ref] names, looked up by [_id]; the document found replaces
    the value, [null] when there is none.  A path without [ref] names no
    model and is left as it is. *)
Definition populate (models : string → list Document) (sch : Schema)
    (path : string) (sel : list string) (d : Document) : Document :=
  match schema_path sch path ≫= path_ref with
  | None => d
  | Some m =>
      match doc_fields d !! path with
      | Some (BVal (Str s)) =>
          let found := castObjectId s ≫= fun oid =>
                         find (fun t => N.eqb (doc_id t) oid) (models m) in
          {| doc_id := doc_id d;
             doc_fields :=
               <[path := BVal (from_option (select sel) Null found)]>
                 (doc_fields d);
             doc_errors := doc_errors d |}
      | _ => d
      end
  end.

End Mongoose.

(* ================================================================== *)
(** ** The server: schemas, providers, handlers ([server.js]) *)
(* ================================================================== *)

Module Server.
Import Mongoose.

(** *** Schemas *)

(** [default: () => new Date().toISOString().split('T')[0]], and the
    same expression in the job handler. *)
Definition today (now : Z) : value :=
  match split "T" (Date.toISOString now) with
  | h :: _ => Str h
  | [] => Undefined
  end.

Definition jobSchema : Schema :=
  [ ("jobId", plain SString);
    ("positionTitle", plain SString);
    ("jobClassification", plain SString);
    ("experience", plain SString);
    ("education", plain SString);
    ("locationZip", plain SString);
    ("organizationLevel", plain SString);
    ("attitude", plain SString);
    ("comments", plain SString);
    ("jobDescription", plain SString);
    ("certifications", plain (SArrayOf SString));
    ("tools", plain (SArrayOf SString));
    ("attachmentLinks", plain (SArrayOf SString));
    ("datePosted",
      {| path_type := SString; path_required := false;
         path_default := Some (fun now => BVal (today now));
         path_ref := None |}) ].

Definition candidateSchema : Schema :=
  [ ("jobId", plain SString);
    ("candidateId", plain SString);
    ("firstName", plain SString);
    ("lastName", plain SString);
    ("email", plain SString);
    ("phone", plain SString);
    ("education", plain SString);
    ("experience", plain SString);
    ("linkedin", plain SString);
    ("address", plain SString);
    ("totalScore", plain SNumber);
    ("skills", plain (SArrayOf SString));
    ("certifications", plain (SArrayOf SString));
    ("tools", plain (SArrayOf SString));
    ("resumeLink", plain SString) ].

Definition required_path (t : SchemaType) : SchemaPath :=
  {| path_type := t; path_required := true;
     path_default := None; path_ref := None |}.

Definition evaluationSchema : Schema :=
  [ ("candidateId", required_path SString);
    ("evaluationResults", required_path SArrayMixed);
    ("ScoresFactor", required_path SArrayMixed);
    ("createdAt",
      {| path_type := SDate; path_required := false;
         path_default := Some (fun now => BDate now);
         path_ref := None |}) ].

(** *** The database: the three collections, in insertion order *)

Record DB : Type := {
  jobs : list Document;
  candidates : list Document;
  evaluations : list Document;
  next_id : N                       (* the next ObjectId to hand out *)
}.

(** The collection of the model registered under a name. *)
Definition models (db : DB) (name : string) : list Document :=
  if String.eqb name "Job" then jobs db
  else if String.eqb name "Candidate" then candidates db
  else if String.eqb name "Evaluation" then evaluations db
  else [].

(** *** The external providers *)

(** An uploaded file, as multer's memory storage hands it over. *)
Record File : Type := {
  originalname : string;
  mimetype : string;
  buffer : list Byte.byte
}.

(** The argument of [drive.files.create]. *)
Record UploadRequest : Type := {
  resource_name : string;
  resource_parents : list string;
  media_mimeType : string;
  media_body : list Byte.byte;
  request_fields : string
}.

(** The blob store: a call either fails ([None], a rejected promise) or
    answers with the [webViewLink] of the file it created. *)
Class BlobStore (D : Type) : Type :=
  files_create : D → UploadRequest → option string * D.

(** The argument of [sheets.spreadsheets.values.append]. *)
Record AppendRequest : Type := {
  spreadsheetId : string;
  range : string;
  valueInputOption : string;
  resource_values : list (list value)
}.

(** The row appender: a call succeeds or fails. *)
Class RowAppender (S : Type) : Type :=
  values_append : S → AppendRequest → bool * S.

(** *** Responses *)

Record Response : Type := { status : Z; body : value }.

(** An object literal. *)
Definition object (l : list (string * value)) : gmap string value :=
  list_to_map l.

(** [res.status(code).json({...})] *)
Definition json (code : Z) (l : list (string * value)) : Response :=
  {| status := code; body := Obj (object l) |}.

Section Handlers.

Context {D S : Type} `{!BlobStore D} `{!RowAppender S}.

Record World : Type := {
  drive : D;
  sheets : S;
  db : DB;
  now : Z                           (* the clock, in ms since the epoch *)
}.

Definition with_drive (w : World) (d : D) : World :=
  {| drive := d; sheets := sheets w; db := db w; now := now w |}.

Definition with_sheets (w : World) (s : S) : World :=
  {| drive := drive w; sheets := s; db := db w; now := now w |}.

Definition with_db (w : World) (b : DB) : World :=
  {| drive := drive w; sheets := sheets w; db := b; now := now w |}.

(** Constructing a document draws a new ObjectId. *)
Definition draw_id (b : DB) : DB :=
  {| jobs := jobs b; candidates := candidates b;
     evaluations := evaluations b; next_id := (next_id b + 1)%N |}.

Definition with_jobs (b : DB) (l : list Document) : DB :=
  {| jobs := l; candidates := candidates b;
     evaluations := evaluations b; next_id := next_id b |}.

Definition with_candidates (b : DB) (l : list Document) : DB :=
  {| jobs := jobs b; candidates := l;
     evaluations := evaluations b; next_id := next_id b |}.

Definition with_evaluations (b : DB) (l : list Document) : DB :=
  {| jobs := jobs b; candidates := candidates b;
     evaluations := l; next_id := next_id b |}.

Definition folderId : string := "16E5IHs55NHydlC7qtNFRFcaI-ujvTV-i".

(** [Array.isArray(x) ? x : [x]] *)
Definition as_array (x : value) : value :=
  if isArray x then x else Arr [x].

(** *** POST /api/jobs *)

Definition attachment_upload (file : File) : UploadRequest :=
  {| resource_name := originalname file;
     resource_parents := [folderId];
     media_mimeType := mimetype file;
     media_body := buffer file;
     request_fields := "id, webViewLink" |}.

(** The loop over [req.files]: each file is uploaded in turn and its
    link pushed onto [attachmentLinks]; a failed upload throws. *)
Fixpoint upload_attachments (d : D) (files : list File)
    (attachmentLinks : list string) : option (list string) * D :=
  match files with
  | [] => (Some attachmentLinks, d)
  | file :: rest =>
      match files_create d (attachment_upload file) with
      | (Some webViewLink, d') =>
          upload_attachments d' rest (attachmentLinks ++ [webViewLink])
      | (None, d') => (None, d')
      end
  end.

(** [uploads d files links d']: starting from drive [d], the files are
    uploaded one after the other, in order, every call succeeds, the
    [i]-th link is the answer to the upload of the [i]-th file, and the
    drive ends as [d']. *)
Inductive uploads : D → list File → list string → D → Prop :=
| uploads_nil d : uploads d [] [] d
| uploads_cons d d1 d' file files link links :
    files_create d (attachment_upload file) = (Some link, d1) →
    uploads d1 files links d' →
    uploads d (file :: files) (link :: links) d'.

Definition internal_server_error : Response :=
  json 500 [("error", Str "Internal Server Error")].

(** [body] is [req.body], an object: the text fields of the form.
    [files] is [req.files]: [None] when the request was not a multipart
    form, in which case iterating it throws. *)
Definition post_api_jobs (w : World) (body : gmap string value)
    (files : option (list File)) : Response * World :=
  let jobId := get body "jobId" in
  let positionTitle := get body "positionTitle" in
  let jobClassification := get body "jobClassification" in
  let experience := get body "experience" in
  let education := get body "education" in
  let locationZip := get body "locationZip" in
  let organizationLevel := get body "organizationLevel" in
  let attitude := get body "attitude" in
  let comments := get body "comments" in
  let jobDescription := get body "jobDescription" in
  let certifications := get_or body "certifications" (Arr []) in
  let tools := get_or body "tools" (Arr []) in
  match files with
  | None => (internal_server_error, w)
  | Some files =>
      match upload_attachments (drive w) files [] with
      | (None, d') => (internal_server_error, with_drive w d')
      | (Some attachmentLinks, d') =>
          let job :=
            new_document jobSchema (now w) (next_id (db w))
              (object
                 [ ("jobId", jobId);
                   ("positionTitle", positionTitle);
                   ("jobClassification", jobClassification);
                   ("experience", experience);
                   ("education", education);
                   ("locationZip", locationZip);
                   ("organizationLevel", organizationLevel);
                   ("attitude", attitude);
                   ("comments", comments);
                   ("jobDescription", jobDescription);
                   ("certifications", as_array certifications);
                   ("tools", as_array tools);
                   ("attachmentLinks", Arr (Str <$> attachmentLinks));
                   ("datePosted", today (now w)) ]) in
          let w1 := with_db (with_drive w d') (draw_id (db w)) in
          match save jobSchema (jobs (db w)) job with
          | None => (internal_server_error, w1)
          | Some jobs' =>
              (json 201
                 [ ("message", Str "Job created successfully");
                   ("jobId", jobId);
                   ("attachmentLinks", Arr (Str <$> attachmentLinks)) ],
               with_db w1 (with_jobs (db w1) jobs'))
          end
      end
  end.

(** *** GET /api/jobs/:id *)

Definition get_api_jobs_id (w : World) (id : string) : Response * World :=
  match findById (jobs (db w)) id with
  | None => (json 500 [("error", Str "Failed to fetch job details")], w)
  | Some None => (json 404 [("error", Str "Job not found")], w)
  | Some (Some job) => ({| status := 200; body := toJSON job |}, w)
  end.

(** *** POST /api/candidates *)

(** [file] is [req.file], the optional resume. *)
Definition post_api_candidates (w : World) (body : gmap string value)
    (file : option File) : Response * World :=
  let jobId := get body "jobId" in
  let candidateId := get body "candidateId" in
  let firstName := get body "firstName" in
  let lastName := get body "lastName" in
  let email := get body "email" in
  let phone := get body "phone" in
  let education := get body "education" in
  let experience := get body "experience" in
  let linkedin := get body "linkedin" in
  let address := get body "address" in
  let totalScore := get body "totalScore" in
  let skills := get_or body "skills" (Arr []) in
  let certifications := get_or body "certifications" (Arr []) in
  let tools := get_or body "tools" (Arr []) in
  let uploaded : option value * D :=
    match file with
    | None => (Some Null, drive w)
    | Some f =>
        let '(r, d') :=
          files_create (drive w)
            {| resource_name :=
                 ToString firstName +:+ "_" +:+ ToString lastName
                   +:+ "_Resume.pdf";
               resource_parents := [folderId];
               media_mimeType := mimetype f;
               media_body := buffer f;
               request_fields := "id, webViewLink" |} in
        (Str <$> r, d')
    end in
  match uploaded with
  | (None, d') => (internal_server_error, with_drive w d')
  | (Some resumeLink, d') =>
      let candidate :=
        new_document candidateSchema (now w) (next_id (db w))
          (object
             [ ("jobId", jobId);
               ("candidateId", candidateId);
               ("firstName", firstName);
               ("lastName", lastName);
               ("email", email);
               ("phone", phone);
               ("education", education);
               ("experience", experience);
               ("linkedin", linkedin);
               ("address", address);
               ("totalScore", totalScore);
               ("skills", as_array skills);
               ("certifications", as_array certifications);
               ("tools", as_array tools);
               ("resumeLink", resumeLink) ]) in
      let w1 := with_db (with_drive w d') (draw_id (db w)) in
      match save candidateSchema (candidates (db w)) candidate with
      | None => (internal_server_error, w1)
      | Some candidates' =>
          (json 201
             [ ("message", Str "Candidate applied successfully!");
               ("resumeLink", resumeLink) ],
           with_db w1 (with_candidates (db w1) candidates'))
      end
  end.

(** *** POST /api/candidateToSheet *)

Definition not_specified : value := Str "Not Specified".

(** [Array.isArray(x) ? x.join(", ") : x || "Not Specified"] *)
Definition joined (x : value) : value :=
  match x with
  | Arr l => Str (join ", " l)
  | _ => or x not_specified
  end.

Definition candidate_row (body : gmap string value) : list value :=
  let candidateId := get body "candidateId" in
  let firstName := get body "firstName" in
  let lastName := get body "lastName" in
  let email := get body "email" in
  let phone := get body "phone" in
  let education := get body "education" in
  let experience := get body "experience" in
  let linkedin := get body "linkedin" in
  let address := get body "address" in
  let totalScore := get body "totalScore" in
  let skills := get body "skills" in
  let certifications := get body "certifications" in
  let tools := get body "tools" in
  [ or candidateId not_specified;
    or firstName not_specified;
    or lastName not_specified;
    or email not_specified;
    or phone not_specified;
    or education not_specified;
    or experience not_specified;
    or linkedin not_specified;
    or address not_specified;
    or totalScore (Str "0");
    joined skills;
    joined certifications;
    joined tools ].

Definition candidate_append (body : gmap string value) : AppendRequest :=
  {| spreadsheetId := "1Ufx8chsZzW2SKYPc_AHueDwJI9B7G6xbzYhk8lJgF5Y";
     range := "Sheet1!A1";
     valueInputOption := "USER_ENTERED";
     resource_values := [candidate_row body] |}.

Definition post_api_candidateToSheet (w : World) (body : gmap string value)
    : Response * World :=
  match values_append (sheets w) (candidate_append body) with
  | (true, s') =>
      (json 200 [("message", Str "Data added to Google Sheet successfully")],
       with_sheets w s')
  | (false, s') =>
      (json 500
         [("message", Str "Failed to submit the data in the google sheet")],
       with_sheets w s')
  end.

(** *** POST /api/saveEvaluation *)

Definition post_api_saveEvaluation (w : World) (body : gmap string value)
    : Response * World :=
  let candidateId := get body "candidateId" in
  let evaluationResults := get body "evaluationResults" in
  let ScoresFactor := get body "ScoresFactor" in
  if JS.not candidateId || JS.not evaluationResults
  then (json 400 [("error", Str "Missing required fields")], w)
  else
    let newEvaluation :=
      new_document evaluationSchema (now w) (next_id (db w))
        (object
           [ ("candidateId", candidateId);
             ("evaluationResults", evaluationResults);
             ("ScoresFactor", ScoresFactor) ]) in
    let w1 := with_db w (draw_id (db w)) in
    match save evaluationSchema (evaluations (db w)) newEvaluation with
    | None => (internal_server_error, w1)
    | Some evaluations' =>
        (json 201 [("message", Str "Evaluation saved successfully!")],
         with_db w1 (with_evaluations (db w1) evaluations'))
    end.

(** *** GET /api/getCandidate/:candidateId *)

Definition get_api_getCandidate (w : World) (candidateId : string)
    : Response * World :=
  match findOne (candidates (db w)) "candidateId" candidateId with
  | None =>
      (json 404
         [("success", Bool false); ("message", Str "Candidate not found.")],
       w)
  | Some found =>
      let candidate :=
        populate (models (db w)) candidateSchema "jobId"
          ["jobClassification"; "positionTitle"] found in
      (json 200 [("success", Bool true); ("data", toJSON candidate)], w)
  end.

(** *** GET /api/getJobs *)

Definition get_api_getJobs (w : World) : Response * World :=
  ({| status := 200; body := Arr (toJSON <$> jobs (db w)) |}, w).

(** *** GET /api/candidates *)

Definition get_api_candidates (w : World) : Response * World :=
  let found :=
    populate (models (db w)) candidateSchema "jobId" ["jobClassification"]
      <$> candidates (db w) in
  ({| status := 200; body := Arr (toJSON <$> found) |}, w).

(** *** POST /api/assessmentosheet *)

Definition assessment_row (body : gmap string value) : list value :=
  let candidateId := get body "candidateId" in
  let agreeableness := get body "agreeableness" in
  let communicationSkills := get body "communicationSkills" in
  let conscientiousness := get body "conscientiousness" in
  let criticalThinking := get body "criticalThinking" in
  let emotionalStability := get body "emotionalStability" in
  let extroversion := get body "extroversion" in
  let leadershipAbility := get body "leadershipAbility" in
  let openness := get body "openness" in
  let professionalCultureProfile := get body "professionalCultureProfile" in
  [ or candidateId not_specified;
    or agreeableness not_specified;
    or communicationSkills not_specified;
    or conscientiousness not_specified;
    or criticalThinking not_specified;
    or emotionalStability not_specified;
    or extroversion not_specified;
    or leadershipAbility not_specified;
    or openness not_specified;
    or professionalCultureProfile not_specified ].

Definition assessment_append (body : gmap string value) : AppendRequest :=
  {| spreadsheetId := "1Ufx8chsZzW2SKYPc_AHueDwJI9B7G6xbzYhk8lJgF5Y";
     range := "Sheet2";
     valueInputOption := "USER_ENTERED";
     resource_values := [assessment_row body] |}.

Definition post_api_assessmentosheet (w : World) (body : gmap string value)
    : Response * World :=
  match values_append (sheets w) (assessment_append body) with
  | (true, s') =>
      (json 200 [("message", Str "Data added to Google Sheet successfully")],
       with_sheets w s')
  | (false, s') =>
      (json 500
         [("message", Str "Failed to submit the data in the google sheet")],
       with_sheets w s')
  end.

(** *** GET /api/getEvaluation/:candidateId *)

Definition get_api_getEvaluation (w : World) (candidateId : string)
    : Response * World :=
  match findOne (evaluations (db w)) "candidateId" candidateId with
  | None => (json 404 [("error", Str "Evaluation not found")], w)
  | Some evaluation => ({| status := 200; body := toJSON evaluation |}, w)
  end.

(** *** POST /api/submitForm *)

Definition survey_row (body : gmap string value) : list value :=
  let q1 := get body "q1" in
  let q1Details := get body "q1Details" in
  let q2 := get body "q2" in
  let q3 := get body "q3" in
  let q3Details := get body "q3Details" in
  let q4 := get body "q4" in
  let q4Details := get body "q4Details" in
  let q5 := get body "q5" in
  let q6 := get body "q6" in
  let q6Details := get body "q6Details" in
  let q7 := get body "q7" in
  [ or q1 not_specified;
    or q1Details not_specified;
    or q2 not_specified;
    or q3 not_specified;
    or q3Details not_specified;
    or q4 not_specified;
    or q4Details not_specified;
    or q5 not_specified;
    or q6 not_specified;
    or q6Details not_specified;
    or q7 not_specified ].

Definition survey_append (body : gmap string value) : AppendRequest :=
  {| spreadsheetId := "1Ufx8chsZzW2SKYPc_AHueDwJI9B7G6xbzYhk8lJgF5Y";
     range := "Sheet3";
     valueInputOption := "USER_ENTERED";
     resource_values := [survey_row body] |}.

Definition post_api_submitForm (w : World) (body : gmap string value)
    : Response * World :=
  match values_append (sheets w) (survey_append body) with
  | (true, s') =>
      (json 200 [("message", Str "Data added to Google Sheet successfully")],
       with_sheets w s')
  | (false, s') =>
      (json 500
         [("message", Str "Failed to submit the data in the google sheet")],
       with_sheets w s')
  end.

End Handlers.

Arguments World : clear implicits.

End Server.

(* ================================================================== *)
(** ** Concrete providers

    An in-memory drive and an in-memory sheet, used to run the handlers
    on concrete requests. *)
(* ================================================================== *)

Module Memory.
Import Mongoose Server.

(** The drive keeps the uploads it accepted and answers with a link
    numbered by their count; it refuses a file without a name. *)
#[export] Instance memory_drive : BlobStore (list UploadRequest) :=
  fun d r =>
    if String.eqb (resource_name r) ""
    then (None, d)
    else (Some ("https://drive.google.com/file/d/"
                  +:+ pretty (N.of_nat (length d)) +:+ "/view"),
          d ++ [r]).

(** The sheet keeps the rows appended to it, each with its target; it
    refuses a request without rows. *)
#[export] Instance memory_sheets
    : RowAppender (list (string * string * list value)) :=
  fun s r =>
    match resource_values r with
    | [] => (false, s)
    | rows => (true, s ++ ((fun row => (spreadsheetId r, range r, row)) <$> rows))
    end.

Definition MemoryWorld : Type :=
  World (list UploadRequest) (list (string * string * list value)).

Definition empty_db : DB :=
  {| jobs := []; candidates := []; evaluations := []; next_id := 1 |}.

(** An empty world on 3 November 2026, 07:20:00 UTC. *)
Definition world0 : MemoryWorld :=
  {| drive := []; sheets := []; db := empty_db; now := 1793690400000 |}.

Definition file (name : string) : File :=
  {| originalname := name; mimetype := "application/pdf"; buffer := [] |}.

(** A job form with two attachments. *)
Definition job_form : gmap string value :=
  object [ ("jobId", Str "J1");
           ("positionTitle", Str "Engineer");
           ("jobClassification", Str "Full time");
           ("certifications", Arr [Str "PMP"; Str "CKA"]);
           ("tools", Str "git") ].

Definition job_files : list File := [file "cv.pdf"; file "notes.txt"].

(** The world after that job has been posted to [world0]. *)
Definition world1 : MemoryWorld :=
  (post_api_jobs world0 job_form (Some job_files)).2.

(** Two candidate forms with the same [candidateId], both for job J1. *)
Definition ann_form : gmap string value :=
  object [ ("jobId", Str "J1");
           ("candidateId", Str "C1");
           ("firstName", Str "Ann");
           ("lastName", Str "Lee");
           ("totalScore", Str "8.5");
           ("skills", Str "sql") ].

Definition bob_form : gmap string value :=
  object [ ("jobId", Str "J1");
           ("candidateId", Str "C1");
           ("firstName", Str "Bob");
           ("lastName", Str "Ray");
           ("skills", Arr [Str "go"; Str "c"]) ].

(** The worlds after Ann, and then Bob, have applied. *)
Definition world2 : MemoryWorld :=
  (post_api_candidates world1 ann_form None).2.

Definition world3 : MemoryWorld :=
  (post_api_candidates world2 bob_form None).2.

(** An evaluation of candidate C1, and a later one for the same
    candidate. *)
Definition first_evaluation : gmap string value :=
  object [ ("candidateId", Str "C1");
           ("evaluationResults", Arr [Str "strong"]);
           ("ScoresFactor", Arr [Num (Number.of_Z 4); Num (Number.of_Z 5)]) ].

Definition second_evaluation : gmap string value :=
  object [ ("candidateId", Str "C1");
           ("evaluationResults", Arr [Str "weak"]);
           ("ScoresFactor", Arr [Num (Number.of_Z 1)]) ].

Definition world4 : MemoryWorld :=
  (post_api_saveEvaluation world3 first_evaluation).2.

(** A candidate sent as JSON, with a number for [skills]. *)
Definition numeric_skills_form : gmap string value :=
  object [ ("candidateId", Str "C9");
           ("skills", Num (Number.of_Z 5)) ].


(** An empty world on 1 January 10000, 00:00:00 UTC. *)
Definition far_world : MemoryWorld :=
  {| drive := []; sheets := []; db := empty_db; now := 253402300800000 |}.

End Memory.

(* ================================================================== *)
(** ** The Gregorian calendar, counted directly

    The reference for the dates the server writes: leap years by the
    Gregorian rule, days counted year by year and month by month, and a
    date written with the digits of its year, month and day.  Nothing
    here is shared with [Date]. *)
(* ================================================================== *)

Module Calendar.

Definition leap (y : Z) : bool :=
  (y mod 4 =? 0) && (negb (y mod 100 =? 0) || (y mod 400 =? 0)).

Definition days_in_year (y : Z) : Z := if leap y then 366 else 365.

Definition sumZ (l : list Z) : Z := foldr Z.add 0 l.

(** Days from 1 January 1970 to 1 January of year [y]. *)
Definition days_before_year (y : Z) : Z :=
  if decide (1970 ≤ y)
  then sumZ (days_in_year <$> seqZ 1970 (y - 1970))
  else - sumZ (days_in_year <$> seqZ y (1970 - y)).

Definition month_lengths (y : Z) : list Z :=
  [31; if leap y then 29 else 28; 31; 30; 31; 30; 31; 31; 30; 31; 30; 31].

(** Months are numbered from 1, as they are written. *)
Definition days_in_month (y m : Z) : Z :=
  nth (Z.to_nat (m - 1)) (month_lengths y) 0.

Definition days_before_month (y m : Z) : Z :=
  sumZ (take (Z.to_nat (m - 1)) (month_lengths y)).

(** The day number (days since 1 January 1970) of the date [y-m-d]. *)
Definition days_from_civil (y m d : Z) : Z :=
  days_before_year y + days_before_month y m + (d - 1).

Definition valid_date (y m d : Z) : Prop :=
  1 ≤ m ≤ 12 ∧ 1 ≤ d ≤ days_in_month y m.

(** [current_date t y m d]: at the instant [t], in ms since the epoch,
    the date in UTC is [y-m-d].  A day has 86400000 ms. *)
Definition current_date (t y m d : Z) : Prop :=
  valid_date y m d ∧ days_from_civil y m d = t / 86400000.

(** The character of the last decimal digit of [n]: the digits follow
    one another from code 48. *)
Definition decimal_digit (n : Z) : ascii :=
  ascii_of_nat (Z.to_nat (48 + n mod 10)).


(** The year as an ISO date writes it: four digits for the years 0 to
    9999, otherwise a sign and six digits. *)
Definition written_year (y : Z) : string :=
  if (0 <=? y) && (y <=? 9999) then
    String.string_of_list_ascii
      [ decimal_digit (y / 1000); decimal_digit (y / 100);
        decimal_digit (y / 10); decimal_digit y ]
  else
    String (if y <? 0 then "-"%char else "+"%char)
      (String.string_of_list_ascii
         [ decimal_digit (Z.abs y / 100000); decimal_digit (Z.abs y / 10000);
           decimal_digit (Z.abs y / 1000); decimal_digit (Z.abs y / 100);
           decimal_digit (Z.abs y / 10); decimal_digit (Z.abs y) ]).

(** The date [y-m-d] as an ISO date writes it, in any year. *)
Definition written_date (y m d : Z) : string :=
  written_year y
    +:+ String.string_of_list_ascii
          [ "-"%char; decimal_digit (m / 10); decimal_digit m;
            "-"%char; decimal_digit (d / 10); decimal_digit d ].

End Calendar.

(* ================================================================== *)
(** ** Vocabulary of the statements *)
(* ================================================================== *)

Module Spec.
Import Mongoose Server.

(** What constructing a document leaves at a schema path. *)
Definition path_value (now : Z) (obj : gmap string value) (name : string)
    (spec : SchemaPath) : option bson :=
  match get obj name with
  | Undefined =>
      match path_default spec with
      | Some f => Some (f now)
      | None =>
          if is_array_type (path_type spec) then Some (BVal (Arr [])) else None
      end
  | v => cast (path_type spec) v
  end.

(** The 400 answer of save-evaluation. *)
Definition missing_fields : Response :=
  json 400 [("error", Str "Missing required fields")].




(** The fields of a candidate that the schema types as String and that
    the handler passes as they were submitted. *)
Definition candidate_text_fields : list string :=
  [ "candidateId"; "firstName"; "lastName"; "email"; "phone"; "education";
    "experience"; "linkedin"; "address" ].

(** How a field submitted as a single value or as a list is stored: a
    lone string as the one-element list, a list of strings as it is,
    nothing as the empty list; a lone number or boolean as the
    one-element list of the string it prints as.  [inj] says how the
    stored value is read: as a document field or as JSON. *)
Definition normalized_as {A : Type} (inj : value → A)
    (submitted : option value) (stored : option A) : Prop :=
  (submitted = None → stored = Some (inj (Arr [])))
  ∧ (∀ s, submitted = Some (Str s) → stored = Some (inj (Arr [Str s])))
  ∧ (∀ l : list string, submitted = Some (Arr (Str <$> l)) →
       stored = Some (inj (Arr (Str <$> l))))
  ∧ (∀ x, submitted = Some (Num x) →
       stored = Some (inj (Arr [Str (Number.toString x)])))
  ∧ (∀ b : bool, submitted = Some (Bool b) →
       stored = Some (inj (Arr [Str (if b then "true" else "false")]))).

Definition normalized : option value → option bson → Prop :=
  normalized_as BVal.


(** A path fails to cast when a value is supplied and has no cast. *)
Definition cast_fails (obj : gmap string value) (p : string * SchemaPath) : bool :=
  match get obj p.1 with
  | Undefined => false
  | v => match cast (path_type p.2) v with Some _ => false | None => true end
  end.

(** A form whose fields are text, the fields of [lists] possibly
    repeated (a list of texts). *)
Definition text_form (lists : list string) (req : gmap string value) : Prop :=
  ∀ k v, req !! k = Some v →
    (∃ s, v = Str s) ∨ (k ∈ lists ∧ ∃ l : list string, v = Arr (Str <$> l)).

(** The fields of a job that the schema types as String and that the
    handler passes as they were submitted. *)
Definition job_text_fields : list string :=
  [ "jobId"; "positionTitle"; "jobClassification"; "experience"; "education";
    "locationZip"; "organizationLevel"; "attitude"; "comments";
    "jobDescription" ].

(** The columns of an assessment row and of a survey row, in order. *)
Definition assessment_columns : list string :=
  [ "candidateId"; "agreeableness"; "communicationSkills"; "conscientiousness";
    "criticalThinking"; "emotionalStability"; "extroversion";
    "leadershipAbility"; "openness"; "professionalCultureProfile" ].

Definition survey_columns : list string :=
  [ "q1"; "q1Details"; "q2"; "q3"; "q3Details"; "q4"; "q4Details"; "q5";
    "q6"; "q6Details"; "q7" ].

(** The elements of a response whose body is a list. *)
Definition listing (r : Response) : list value :=
  match body r with
  | Arr l => l
  | _ => []
  end.

(** The properties of a response whose body is an object. *)
Definition properties (r : Response) : gmap string value :=
  match body r with
  | Obj o => o
  | _ => ∅
  end.

(** The upload the candidate handler makes for a resume: the file goes
    up under the name built from the submitted first and last name. *)
Definition resume_upload (req : gmap string value) (f : File) : UploadRequest :=
  {| resource_name :=
       ToString (get req "firstName") +:+ "_" +:+ ToString (get req "lastName")
         +:+ "_Resume.pdf";
     resource_parents := [folderId];
     media_mimeType := mimetype f;
     media_body := buffer f;
     request_fields := "id, webViewLink" |}.

(** [grows b b']: each collection of [b'] begins with what it holds in
    [b]; nothing stored was removed, reordered or changed. *)
Definition grows (b b' : DB) : Prop :=
  jobs b `prefix_of` jobs b'
  ∧ candidates b `prefix_of` candidates b'
  ∧ evaluations b `prefix_of` evaluations b'.

(** [fresh_ids b]: within each collection the ids are distinct, and all
    of them are below the next id to hand out. *)
Definition fresh_ids (b : DB) : Prop :=
  NoDup (doc_id <$> jobs b)
  ∧ NoDup (doc_id <$> candidates b)
  ∧ NoDup (doc_id <$> evaluations b)
  ∧ ∀ d, d ∈ jobs b ++ candidates b ++ evaluations b →
      (doc_id d < next_id b)%N.

(** [free_of c s]: the character [c] does not occur in [s]. *)
Fixpoint free_of (c : ascii) (s : string) : Prop :=
  match s with
  | EmptyString => True
  | String a s' => a ≠ c ∧ free_of c s'
  end.

End Spec.

(* ================================================================== *)
(** * Properties *)
(* ================================================================== *)

Import Mongoose Server Spec Memory.

(** Closed statements are settled by running the definitions. *)
Ltac by_computation :=
  repeat match goal with |- _ ∧ _ => split end; vm_compute; reflexivity.

(** ** Numbers read and written *)

(** [Number(s)] on numerals with a fraction, with blanks around them, in
    hexadecimal and with an exponent; what is no numeral is NaN. *)
Example StringToNumber_numerals :
  Number.StringToNumber "8.5" = S754_finite false 4785074604081152 (-49)
  ∧ Number.StringToNumber " 42 " = Number.of_Z 42
  ∧ Number.StringToNumber "0x1F" = Number.of_Z 31
  ∧ Number.StringToNumber "1e3" = Number.of_Z 1000
  ∧ Number.StringToNumber "-0" = S754_zero true
  ∧ Number.StringToNumber "" = Number.zero
  ∧ Number.StringToNumber "Infinity" = S754_infinity false
  ∧ Number.StringToNumber "8.5kg" = Number.NaN.
Proof. by_computation. Qed.

(** A number is written with the fewest digits that read back as it; the
    exponent form starts at [1e21] and below [1e-6]; integers beyond
    [2^53] have been rounded to a double when they were read. *)
Example toString_numbers :
  Number.toString (Number.StringToNumber "8.5") = "8.5"
  ∧ Number.toString (Number.of_Z 42) = "42"
  ∧ Number.toString (Number.StringToNumber "0.1") = "0.1"
  ∧ Number.toString (Number.StringToNumber "-2.50") = "-2.5"
  ∧ Number.toString (Number.of_Z (10 ^ 20)) = "100000000000000000000"
  ∧ Number.toString (Number.of_Z (10 ^ 21)) = "1e+21"
  ∧ Number.toString (Number.of_Z 9007199254740993) = "9007199254740992"
  ∧ Number.toString (Number.StringToNumber "0.000001") = "0.000001"
  ∧ Number.toString (Number.StringToNumber "0.0000001") = "1e-7"
  ∧ Number.toString (Number.StringToNumber "5e-324") = "5e-324"
  ∧ Number.toString (Number.StringToNumber "1.7976931348623157e308")
    = "1.7976931348623157e+308".
Proof. by_computation. Qed.

(** ** Objects and documents *)

Lemma get_absent (o : gmap string value) k : o !! k = None → get o k = Undefined.
Proof. intros E. unfold get. by rewrite E. Qed.

Lemma get_present (o : gmap string value) k v : o !! k = Some v → get o k = v.
Proof. intros E. unfold get. by rewrite E. Qed.

Lemma save_inv sch coll d coll' :
  save sch coll d = Some coll' → coll' = coll ++ [d] ∧ validate sch d = true.
Proof.
  unfold save. destruct (validate sch d); [|done].
  intros [= <-]. done.
Qed.

Lemma set_path_fields now obj fields errs name spec :
  (set_path now obj (fields, errs) (name, spec)).1
  = match path_value now obj name spec with
    | Some b => <[name := b]> fields
    | None => fields
    end.
Proof.
  unfold set_path, path_value.
  destruct (get obj name); simpl;
    repeat (match goal with |- context [match ?x with _ => _ end] =>
              destruct x eqn:?; simpl end); done.
Qed.

Lemma foldl_set_path_other now obj sch acc name :
  name ∉ sch.*1 →
  (foldl (set_path now obj) acc sch).1 !! name = acc.1 !! name.
Proof.
  revert acc. induction sch as [|[n spec] sch IH]; intros [fields errs] Hn; [done|].
  rewrite fmap_cons in Hn. apply not_elem_of_cons in Hn as [Hne Hn].
  cbn [foldl]. rewrite IH by done.
  rewrite set_path_fields.
  destruct (path_value now obj n spec); [|done].
  by rewrite lookup_insert_ne.
Qed.

Lemma foldl_set_path_at now obj sch acc name spec :
  NoDup sch.*1 → (name, spec) ∈ sch →
  (foldl (set_path now obj) acc sch).1 !! name
  = match path_value now obj name spec with
    | Some b => Some b
    | None => acc.1 !! name
    end.
Proof.
  revert acc. induction sch as [|[n s] sch IH]; intros [fields errs] Hnd Hin.
  { by apply elem_of_nil in Hin. }
  rewrite fmap_cons in Hnd. apply NoDup_cons in Hnd as [Hn Hnd].
  cbn [foldl].
  apply elem_of_cons in Hin as [[= <- <-]|Hin].
  - rewrite foldl_set_path_other by done.
    rewrite set_path_fields.
    destruct (path_value now obj name spec); [|done].
    by rewrite lookup_insert_eq.
  - rewrite IH by done.
    destruct (path_value now obj name spec); [done|].
    rewrite set_path_fields.
    destruct (path_value now obj n s); [|done].
    rewrite lookup_insert_ne; [done|].
    intros ->. apply Hn. apply list_elem_of_fmap. by exists (name, spec).
Qed.

(** The field of a new document at a schema path is the cast of the
    value supplied for it, or the path's default. *)
Lemma new_document_lookup sch now id obj name spec :
  NoDup sch.*1 → (name, spec) ∈ sch →
  doc_fields (new_document sch now id obj) !! name
  = path_value now obj name spec.
Proof.
  intros Hnd Hin. unfold new_document.
  pose proof (foldl_set_path_at now obj sch (∅, []) name spec Hnd Hin) as F.
  destruct (foldl (set_path now obj) (∅, []) sch) as [fields errs].
  simpl in *. rewrite F. by destruct (path_value now obj name spec).
Qed.

Lemma castString_strings (l : list string) :
  mapM castString (Str <$> l) = Some (Str <$> l).
Proof.
  apply mapM_Some. induction l as [|s l IH]; constructor; done.
Qed.

Lemma cast_string_array (l : list string) :
  cast (SArrayOf SString) (Arr (Str <$> l)) = Some (BVal (Arr (Str <$> l))).
Proof. unfold cast, cast_plain. by rewrite castString_strings. Qed.

Lemma set_path_errors_cases now obj fields errs p :
  (set_path now obj (fields, errs) p).2
  = errs ++ (if cast_fails obj p then [p.1] else []).
Proof.
  destruct p as [name spec]. unfold cast_fails, set_path. simpl.
  destruct (get obj name); simpl;
    repeat (match goal with |- context [match ?x with _ => _ end] =>
              destruct x eqn:?; simpl end); by rewrite ?app_nil_r.
Qed.

Lemma foldl_set_path_no_errors now obj sch acc :
  (foldl (set_path now obj) acc sch).2 = [] →
  acc.2 = [] ∧ Forall (λ p, cast_fails obj p = false) sch.
Proof.
  revert acc. induction sch as [|p sch IH]; intros [fields errs] H; [done|].
  cbn [foldl] in H. apply IH in H as [H F].
  rewrite set_path_errors_cases in H. apply app_eq_nil in H as [-> H].
  split; [done|]. constructor; [|done].
  by destruct (cast_fails obj p).
Qed.

(** A document that passes validation was built without a CastError:
    every value supplied for a schema path had a cast. *)
Lemma valid_document_casts sch now id obj :
  validate sch (new_document sch now id obj) = true →
  Forall (λ p, cast_fails obj p = false) sch.
Proof.
  unfold validate, new_document.
  pose proof (foldl_set_path_no_errors now obj sch (∅, [])) as F.
  destruct (foldl (set_path now obj) (∅, []) sch) as [fields errs].
  simpl in *. destruct errs; [|done]. intros _. by apply F.
Qed.

Lemma castNumber_text (s : string) :
  s ≠ "" →
  castNumber (Str s)
  = if Number.isNaN (Number.StringToNumber s) then None
    else Some (Num (Number.StringToNumber s)).
Proof.
  intros H. unfold castNumber. by apply String.eqb_neq in H as ->.
Qed.

(** ** POST /api/saveEvaluation *)

Section SaveEvaluation.

Context {D S : Type}.
Implicit Types (w : World D S) (body : gmap string value).

Lemma saveEvaluation_falsy w body :
  truthy (get body "candidateId") = false
  ∨ truthy (get body "evaluationResults") = false →
  post_api_saveEvaluation w body = (missing_fields, w).
Proof.
  intros H. unfold post_api_saveEvaluation, JS.not.
  destruct H as [-> | ->]; simpl; [done|].
  by rewrite orb_true_r.
Qed.

Lemma saveEvaluation_truthy w body :
  truthy (get body "candidateId") = true →
  truthy (get body "evaluationResults") = true →
  status (post_api_saveEvaluation w body).1 = 201
  ∨ status (post_api_saveEvaluation w body).1 = 500.
Proof.
  intros H1 H2. unfold post_api_saveEvaluation, JS.not.
  rewrite H1, H2. cbn [negb orb].
  destruct (save _ _ _); [by left | by right].
Qed.

End SaveEvaluation.

(** C4. A save-evaluation request in which [candidateId] is absent or
    [evaluationResults] is absent is answered with 400 "Missing required
    fields", and the world, so also the evaluation collection, is left
    as it was: nothing is persisted. *)
Theorem C4_absent_field_is_400_and_nothing_saved
    {D S : Type} (w : World D S) (req : gmap string value) :
  req !! "candidateId" = None ∨ req !! "evaluationResults" = None →
  ∃ resp w',
    post_api_saveEvaluation w req = (resp, w')
    ∧ status resp = 400
    ∧ body resp = Obj (object [("error", Str "Missing required fields")])
    ∧ evaluations (db w') = evaluations (db w)
    ∧ w' = w.
Proof.
  intros H. exists missing_fields, w.
  split; [|done].
  apply saveEvaluation_falsy.
  destruct H as [H|H]; [left|right]; by rewrite (get_absent _ _ H).
Qed.

Lemma C4_witness :
  ∃ resp w',
    post_api_saveEvaluation Memory.world0
      (object [("evaluationResults", Arr [Str "good"])]) = (resp, w')
    ∧ status resp = 400
    ∧ body resp = Obj (object [("error", Str "Missing required fields")])
    ∧ evaluations (db w') = evaluations (db Memory.world0)
    ∧ w' = Memory.world0.
Proof.
  apply C4_absent_field_is_400_and_nothing_saved.
  left. reflexivity.
Defined.

(** C9. The required-field check of save-evaluation tests falsiness: an
    empty-string [candidateId] is answered with 400 as if it were
    missing, and nothing is saved; an empty list as [evaluationResults]
    (with a truthy [candidateId]) passes the check, and the answer is not
    a 400. *)
Theorem C9_check_is_falsiness
    {D S : Type} (w : World D S) (req : gmap string value) :
  (req !! "candidateId" = Some (Str "") →
     post_api_saveEvaluation w req = (missing_fields, w))
  ∧ (truthy (get req "candidateId") = true →
     req !! "evaluationResults" = Some (Arr []) →
     status (post_api_saveEvaluation w req).1 ≠ 400
     ∧ (status (post_api_saveEvaluation w req).1 = 201
        ∨ status (post_api_saveEvaluation w req).1 = 500)).
Proof.
  split.
  - intros H. apply saveEvaluation_falsy. left.
    by rewrite (get_present _ _ _ H).
  - intros Hc He.
    assert (truthy (get req "evaluationResults") = true) as Ht
      by (by rewrite (get_present _ _ _ He)).
    destruct (saveEvaluation_truthy w req Hc Ht) as [-> | ->]; split; auto; lia.
Qed.

Lemma C9_witness :
  post_api_saveEvaluation Memory.world0
    (object [("candidateId", Str ""); ("evaluationResults", Arr [Str "good"])])
  = (missing_fields, Memory.world0)
  ∧ status (post_api_saveEvaluation Memory.world0
              (object [("candidateId", Str "C1"); ("evaluationResults", Arr [])])).1
    ≠ 400.
Proof.
  split.
  - apply (proj1 (C9_check_is_falsiness Memory.world0 _)). reflexivity.
  - apply (proj2 (C9_check_is_falsiness Memory.world0 _)); reflexivity.
Defined.

(** C3. A save-evaluation request with a non-empty string [candidateId]
    and a list as [evaluationResults] that omits [ScoresFactor] is
    answered with 201: the handler does not look at [ScoresFactor], the
    Array path defaults to the empty list, and [required] accepts it.
    The evaluation is appended to the collection. *)
Theorem C3_omitted_ScoresFactor_is_201
    {D S : Type} (w : World D S) (req : gmap string value)
    (s : string) (l : list value) :
  req !! "candidateId" = Some (Str s) → s ≠ "" →
  req !! "evaluationResults" = Some (Arr l) →
  req !! "ScoresFactor" = None →
  ∃ w' doc,
    post_api_saveEvaluation w req
    = (json 201 [("message", Str "Evaluation saved successfully!")], w')
    ∧ evaluations (db w') = evaluations (db w) ++ [doc]
    ∧ doc_fields doc !! "candidateId" = Some (BVal (Str s))
    ∧ doc_fields doc !! "evaluationResults" = Some (BVal (Arr l))
    ∧ doc_fields doc !! "ScoresFactor" = Some (BVal (Arr []))
    ∧ doc_fields doc !! "createdAt" = Some (BDate (now w)).
Proof.
  intros Hc Hs He Hf.
  unfold post_api_saveEvaluation.
  rewrite (get_present _ _ _ Hc), (get_present _ _ _ He), (get_absent _ _ Hf).
  destruct s as [|c s]; [done|].
  eexists _, _. split; [reflexivity|].
  repeat split; reflexivity.
Qed.

Lemma C3_witness :
  ∃ w' doc,
    post_api_saveEvaluation Memory.world0
      (object [("candidateId", Str "C1");
               ("evaluationResults", Arr [Obj (object [("q", Str "a")])])])
    = (json 201 [("message", Str "Evaluation saved successfully!")], w')
    ∧ evaluations (db w') = evaluations (db Memory.world0) ++ [doc]
    ∧ doc_fields doc !! "candidateId" = Some (BVal (Str "C1"))
    ∧ doc_fields doc !! "evaluationResults"
      = Some (BVal (Arr [Obj (object [("q", Str "a")])]))
    ∧ doc_fields doc !! "ScoresFactor" = Some (BVal (Arr []))
    ∧ doc_fields doc !! "createdAt" = Some (BDate (now Memory.world0)).
Proof.
  apply C3_omitted_ScoresFactor_is_201; [reflexivity | discriminate | reflexivity..].
Defined.

(** ** POST /api/candidateToSheet *)

Lemma or_truthy (v d : value) : truthy v = true → or v d = v.
Proof. intros H. unfold or. by rewrite H. Qed.

Lemma or_falsy (v d : value) : truthy v = false → or v d = d.
Proof. intros H. unfold or. by rewrite H. Qed.





Section CandidateToSheet.

Context {D S : Type} `{!RowAppender S}.
Implicit Types (w : World D S) (req : gmap string value).


End CandidateToSheet.





(** ** GET /api/jobs/:id *)

Lemma find_no_match {A} (f : A → bool) (l : list A) :
  (∀ x, x ∈ l → f x = false) → find f l = None.
Proof.
  induction l as [|a l IH]; intros H; [done|].
  simpl. rewrite (H a) by (apply elem_of_cons; by left).
  apply IH. intros x Hx. apply H. apply elem_of_cons. by right.
Qed.

Lemma findById_absent (coll : list Document) (id : string) (oid : N) :
  castObjectId id = Some oid →
  (∀ d, d ∈ coll → doc_id d ≠ oid) →
  findById coll id = Some None.
Proof.
  intros Hc Hno. unfold findById. rewrite Hc. simpl.
  rewrite find_no_match; [done|].
  intros d Hd. apply N.eqb_neq. by apply Hno.
Qed.

(** The answers of the route by the form of the id: an id that is a
    well-formed ObjectId (24 hexadecimal digits) and is the [_id] of no
    stored job is answered with 404 "Job not found"; an id that is not a
    well-formed ObjectId makes the lookup itself fail, and the handler's
    [catch] answers 500.  The world is unchanged in both cases. *)
Lemma get_api_jobs_id_unknown
    {D S : Type} (w : World D S) (id : string) :
  (∀ oid, castObjectId id = Some oid →
     (∀ d, d ∈ jobs (db w) → doc_id d ≠ oid) →
     get_api_jobs_id w id = (json 404 [("error", Str "Job not found")], w))
  ∧ (castObjectId id = None →
     get_api_jobs_id w id
     = (json 500 [("error", Str "Failed to fetch job details")], w)).
Proof.
  split.
  - intros oid Hc Hno. unfold get_api_jobs_id.
    by rewrite (findById_absent _ _ _ Hc Hno).
  - intros Hc. unfold get_api_jobs_id, findById. by rewrite Hc.
Qed.

Example get_api_jobs_id_well_formed :
  get_api_jobs_id Memory.world0 "0123456789abcdef01234567"
  = (json 404 [("error", Str "Job not found")], Memory.world0).
Proof. reflexivity. Qed.

(** C5, the code at the failing input.  No job is stored, so the id [J1]
    identifies none; the request [GET /api/jobs/J1] is answered with 500
    "Failed to fetch job details", not with 404. *)
Theorem C5_unknown_id_J1_is_500 :
  jobs (db Memory.world0) = []
  ∧ get_api_jobs_id Memory.world0 "J1"
    = (json 500 [("error", Str "Failed to fetch job details")], Memory.world0).
Proof. split; reflexivity. Qed.

(** ** POST /api/jobs *)

Section Jobs.

Context {D S : Type} `{!BlobStore D}.
Implicit Types (w : World D S) (d : D) (files : list File).

Lemma uploads_length d files links d' :
  uploads d files links d' → length links = length files.
Proof. induction 1; simpl; congruence. Qed.

(** The [i]-th link is what the drive answered to the [i]-th file. *)
Lemma uploads_lookup d files links d' i file :
  uploads d files links d' → files !! i = Some file →
  ∃ di di' link,
    files_create di (attachment_upload file) = (Some link, di')
    ∧ links !! i = Some link.
Proof.
  intros U. revert i. induction U as [|d d1 d' f fs k ks Hc U IH]; intros i Hi.
  { by rewrite lookup_nil in Hi. }
  destruct i as [|i]; simpl in Hi.
  - injection Hi as ->. by exists d, d1, k.
  - by apply IH.
Qed.

Lemma upload_attachments_sound files d acc links d' :
  upload_attachments d files acc = (Some links, d') →
  ∃ new, links = acc ++ new ∧ uploads d files new d'.
Proof.
  revert d acc. induction files as [|f fs IH]; intros d acc H; simpl in H.
  - injection H as <- <-. exists []. split; [by rewrite app_nil_r | constructor].
  - destruct (files_create d (attachment_upload f)) as [[k|] d1] eqn:E; [|done].
    apply IH in H as (new & -> & U).
    exists (k :: new). split; [by rewrite <- app_assoc|].
    by econstructor.
Qed.

Lemma upload_attachments_complete files d acc links d' :
  uploads d files links d' →
  upload_attachments d files acc = (Some (acc ++ links), d').
Proof.
  intros U. revert acc. induction U as [|d d1 d' f fs k ks Hc U IH]; intros acc.
  - by rewrite app_nil_r.
  - simpl. rewrite Hc, IH. by rewrite <- app_assoc.
Qed.

(** A failed upload aborts the request: nothing is stored. *)
Lemma upload_attachments_failed w req files d' :
  upload_attachments (drive w) files [] = (None, d') →
  post_api_jobs w req (Some files) = (internal_server_error, with_drive w d').
Proof. intros H. unfold post_api_jobs. by rewrite H. Qed.

(** What a job request that is answered with 201 has done: every file
    was uploaded, and the document built from the object literal of the
    handler was appended to the collection. *)
Lemma post_api_jobs_created w req ofiles resp w' :
  post_api_jobs w req ofiles = (resp, w') → status resp = 201 →
  ∃ fs links obj,
    ofiles = Some fs
    ∧ uploads (drive w) fs links (drive w')
    ∧ resp = json 201 [ ("message", Str "Job created successfully");
                        ("jobId", get req "jobId");
                        ("attachmentLinks", Arr (Str <$> links)) ]
    ∧ jobs (db w')
      = jobs (db w) ++ [new_document jobSchema (now w) (next_id (db w)) obj]
    ∧ get obj "certifications" = as_array (get_or req "certifications" (Arr []))
    ∧ get obj "tools" = as_array (get_or req "tools" (Arr []))
    ∧ get obj "attachmentLinks" = Arr (Str <$> links)
    ∧ get obj "datePosted" = today (now w).
Proof.
  unfold post_api_jobs. intros H Hs.
  destruct ofiles as [fs|]; [|by injection H as <- <-].
  destruct (upload_attachments (drive w) fs []) as [[links|] d'] eqn:U;
    [|by injection H as <- <-].
  destruct (save jobSchema _ _) as [jobs'|] eqn:Sv; [|by injection H as <- <-].
  injection H as <- <-.
  apply upload_attachments_sound in U as (new & -> & U). simpl in U.
  apply save_inv in Sv as [-> _].
  eexists fs, new, _. repeat split; try reflexivity. exact U.
Qed.

End Jobs.

Lemma jobSchema_NoDup : NoDup jobSchema.*1.
Proof. by apply (bool_decide_unpack _). Qed.

Lemma candidateSchema_NoDup : NoDup candidateSchema.*1.
Proof. by apply (bool_decide_unpack _). Qed.

Lemma path_value_string_array now (obj : gmap string value) name l :
  get obj name = Arr (Str <$> l) →
  path_value now obj name (plain (SArrayOf SString))
  = Some (BVal (Arr (Str <$> l))).
Proof.
  intros H. unfold path_value. rewrite H. apply cast_string_array.
Qed.

(** C1. When a job request with the files [files] is answered with 201,
    the links of the answer and of the stored job are one list [links]:
    it has as many entries as there are files, and its [i]-th entry is
    the link the drive answered to the upload of the [i]-th file, the
    files having been uploaded one after the other in their order. *)
Theorem C1_attachment_links_follow_files
    {D S : Type} `{!BlobStore D} (w w' : World D S)
    (req : gmap string value) (files : list File) (resp : Response) :
  post_api_jobs w req (Some files) = (resp, w') →
  status resp = 201 →
  ∃ links job,
    uploads (drive w) files links (drive w')
    ∧ length links = length files
    ∧ (∀ i file, files !! i = Some file →
         ∃ di di' link,
           files_create di (attachment_upload file) = (Some link, di')
           ∧ links !! i = Some link)
    ∧ body resp
      = Obj (object [ ("message", Str "Job created successfully");
                      ("jobId", get req "jobId");
                      ("attachmentLinks", Arr (Str <$> links)) ])
    ∧ jobs (db w') = jobs (db w) ++ [job]
    ∧ doc_fields job !! "attachmentLinks" = Some (BVal (Arr (Str <$> links))).
Proof.
  intros H Hs.
  destruct (post_api_jobs_created _ _ _ _ _ H Hs)
    as (fs & links & obj & [= <-] & U & -> & Hj & _ & _ & Ha & _).
  exists links, (new_document jobSchema (now w) (next_id (db w)) obj).
  split; [exact U|].
  split; [by eapply uploads_length|].
  split; [intros i file Hi; by eapply uploads_lookup|].
  split; [reflexivity|].
  split; [exact Hj|].
  rewrite (new_document_lookup _ _ _ _ "attachmentLinks"
             (plain (SArrayOf SString)) jobSchema_NoDup).
  - by apply path_value_string_array.
  - apply list_elem_of_In. simpl. tauto.
Qed.

Lemma C1_witness :
  ∃ links job,
    uploads (drive world0) job_files links (drive world1)
    ∧ length links = length job_files
    ∧ (∀ i file, job_files !! i = Some file →
         ∃ di di' link,
           files_create di (attachment_upload file) = (Some link, di')
           ∧ links !! i = Some link)
    ∧ body (post_api_jobs world0 job_form (Some job_files)).1
      = Obj (object [ ("message", Str "Job created successfully");
                      ("jobId", get job_form "jobId");
                      ("attachmentLinks", Arr (Str <$> links)) ])
    ∧ jobs (db world1) = jobs (db world0) ++ [job]
    ∧ doc_fields job !! "attachmentLinks" = Some (BVal (Arr (Str <$> links))).
Proof.
  apply (C1_attachment_links_follow_files world0 world1 job_form job_files
           (post_api_jobs world0 job_form (Some job_files)).1);
    reflexivity.
Defined.

Lemma normalized_path now (obj req : gmap string value) name :
  get obj name = as_array (get_or req name (Arr [])) →
  normalized (req !! name) (path_value now obj name (plain (SArrayOf SString))).
Proof.
  intros H. unfold get_or, get in H. split; [|split; [|split; [|split]]].
  - intros E. rewrite E in H. by apply (path_value_string_array _ _ _ []).
  - intros s E. rewrite E in H. by apply (path_value_string_array _ _ _ [s]).
  - intros l E. rewrite E in H. by apply path_value_string_array.
  - intros x E. rewrite E in H. unfold path_value, get. by rewrite H.
  - intros b E. rewrite E in H. unfold path_value, get. rewrite H. by destruct b.
Qed.

(** ** POST /api/candidates *)

Section Candidates.

Context {D S : Type} `{!BlobStore D}.
Implicit Types (w : World D S).

(** What a candidate request that is answered with 201 has done. *)
Lemma post_api_candidates_created w req file resp w' :
  post_api_candidates w req file = (resp, w') → status resp = 201 →
  ∃ obj,
    candidates (db w')
    = candidates (db w)
        ++ [new_document candidateSchema (now w) (next_id (db w)) obj]
    ∧ jobs (db w') = jobs (db w)
    ∧ (∀ k, k ∈ "jobId" :: "totalScore" :: candidate_text_fields →
         get obj k = get req k)
    ∧ get obj "skills" = as_array (get_or req "skills" (Arr []))
    ∧ get obj "certifications"
      = as_array (get_or req "certifications" (Arr []))
    ∧ get obj "tools" = as_array (get_or req "tools" (Arr []))
    ∧ Forall (λ p, cast_fails obj p = false) candidateSchema.
Proof.
  unfold post_api_candidates. intros H Hs.
  match type of H with
  | (match ?u with _ => _ end) = _ => destruct u as [[resumeLink|] d']
  end; [|by injection H as <- <-].
  destruct (save candidateSchema _ _) as [cs|] eqn:Sv;
    [|by injection H as <- <-].
  injection H as <- <-.
  apply save_inv in Sv as [-> Hv]. apply valid_document_casts in Hv.
  eexists. split; [reflexivity|]. split; [reflexivity|].
  split; [|repeat split; try reflexivity; exact Hv].
  intros k Hk. unfold candidate_text_fields in Hk.
  rewrite !elem_of_cons, elem_of_nil in Hk.
  repeat (destruct Hk as [-> | Hk]; [reflexivity|]). done.
Qed.

End Candidates.

(** C2, as the code has it.  In a job that was created,
    [certifications] and [tools], and in a candidate that was created,
    [skills], [certifications] and [tools], are stored normalized: a
    field submitted as a single string is stored as the one-element list
    of that string, a field submitted as a list of strings is stored as
    that list, and an omitted field is stored as the empty list.  The
    lists are lists of strings: a single number or boolean is stored as
    the one-element list of the string it prints as. *)
Theorem C2_lists_are_normalized
    {D S : Type} `{!BlobStore D} (w w' : World D S)
    (req : gmap string value) (resp : Response) :
  (∀ files field,
     post_api_jobs w req files = (resp, w') → status resp = 201 →
     field ∈ ["certifications"; "tools"] →
     ∃ job,
       jobs (db w') = jobs (db w) ++ [job]
       ∧ normalized (req !! field) (doc_fields job !! field))
  ∧ (∀ file field,
       post_api_candidates w req file = (resp, w') → status resp = 201 →
       field ∈ ["skills"; "certifications"; "tools"] →
       ∃ candidate,
         candidates (db w') = candidates (db w) ++ [candidate]
         ∧ normalized (req !! field) (doc_fields candidate !! field)).
Proof.
  split.
  - intros files field H Hs Hf.
    destruct (post_api_jobs_created _ _ _ _ _ H Hs)
      as (fs & links & obj & _ & _ & _ & Hj & Hc & Ht & _).
    eexists. split; [exact Hj|].
    rewrite !elem_of_cons, elem_of_nil in Hf.
    destruct Hf as [-> | [-> | []]].
    + rewrite (new_document_lookup _ _ _ _ "certifications"
                 (plain (SArrayOf SString)) jobSchema_NoDup).
      * by apply normalized_path.
      * apply list_elem_of_In. simpl. tauto.
    + rewrite (new_document_lookup _ _ _ _ "tools"
                 (plain (SArrayOf SString)) jobSchema_NoDup).
      * by apply normalized_path.
      * apply list_elem_of_In. simpl. tauto.
  - intros file field H Hs Hf.
    destruct (post_api_candidates_created _ _ _ _ _ H Hs)
      as (obj & Hc & _ & _ & Hsk & Hce & Hto & _).
    eexists. split; [exact Hc|].
    rewrite !elem_of_cons, elem_of_nil in Hf.
    destruct Hf as [-> | [-> | [-> | []]]].
    + rewrite (new_document_lookup _ _ _ _ "skills"
                 (plain (SArrayOf SString)) candidateSchema_NoDup).
      * by apply normalized_path.
      * apply list_elem_of_In. simpl. tauto.
    + rewrite (new_document_lookup _ _ _ _ "certifications"
                 (plain (SArrayOf SString)) candidateSchema_NoDup).
      * by apply normalized_path.
      * apply list_elem_of_In. simpl. tauto.
    + rewrite (new_document_lookup _ _ _ _ "tools"
                 (plain (SArrayOf SString)) candidateSchema_NoDup).
      * by apply normalized_path.
      * apply list_elem_of_In. simpl. tauto.
Qed.

Lemma C2_witness :
  (∃ job,
     jobs (db world1) = jobs (db world0) ++ [job]
     ∧ normalized (job_form !! "tools") (doc_fields job !! "tools"))
  ∧ (∃ candidate,
       candidates (db world2) = candidates (db world1) ++ [candidate]
       ∧ normalized (ann_form !! "certifications")
           (doc_fields candidate !! "certifications")).
Proof.
  split.
  - apply (proj1 (C2_lists_are_normalized world0 world1 job_form
                    (post_api_jobs world0 job_form (Some job_files)).1)
             (Some job_files) "tools"); [reflexivity | reflexivity |].
    apply list_elem_of_In. simpl. tauto.
  - apply (proj2 (C2_lists_are_normalized world1 world2 ann_form
                    (post_api_candidates world1 ann_form None).1)
             None "certifications"); [reflexivity | reflexivity |].
    apply list_elem_of_In. simpl. tauto.
Defined.

(** C2 as stated fails for a value that is not a string.  A candidate
    sent as JSON with the number 5 for [skills] is created (201), and
    what is stored is the list of the string "5", not a list containing
    the number that was submitted. *)
Lemma C2_counterexample :
  status (post_api_candidates world0 numeric_skills_form None).1 = 201
  ∧ numeric_skills_form !! "skills" = Some (Num (Number.of_Z 5))
  ∧ (λ c, doc_fields c !! "skills")
      <$> candidates (db (post_api_candidates world0 numeric_skills_form None).2)
    = [Some (BVal (Arr [Str "5"]))].
Proof. by_computation. Qed.

(** ** GET /api/getCandidate/:candidateId *)


Lemma json_fields_lookup (d : Document) (k : string) :
  k ≠ "_id" → k ≠ "__v" →
  json_fields d !! k = bson_json <$> doc_fields d !! k.
Proof.
  intros H1 H2. unfold json_fields.
  rewrite !lookup_insert_ne by done. apply lookup_fmap.
Qed.

(** The [jobId] path of a candidate names no model: populating it
    changes nothing. *)
Lemma populate_candidate_jobId models sel (d : Document) :
  populate models candidateSchema "jobId" sel d = d.
Proof. reflexivity. Qed.


Lemma path_value_text now (obj : gmap string value) name s :
  get obj name = Str s →
  path_value now obj name (plain SString) = Some (BVal (Str s)).
Proof. intros H. unfold path_value. by rewrite H. Qed.

Lemma candidate_text_path (k : string) :
  k ∈ "jobId" :: candidate_text_fields → (k, plain SString) ∈ candidateSchema.
Proof.
  unfold candidate_text_fields. rewrite !elem_of_cons, elem_of_nil.
  intros H. apply list_elem_of_In. simpl.
  repeat (destruct H as [-> | H]; [tauto|]). done.
Qed.


Lemma candidate_totalScore_path :
  ("totalScore", plain SNumber) ∈ candidateSchema.
Proof. apply list_elem_of_In. simpl. tauto. Qed.





(** ** Date: the calendar arithmetic against the calendar counted directly *)

Section CalendarArithmetic.
Import Date Calendar.

(** The leap years of [Date] are those of the Gregorian rule. *)
Lemma leap_year_leap y : leap_year y = leap y.
Proof.
  unfold leap_year, leap.
  destruct (Z.eqb_spec (y mod 4) 0), (Z.eqb_spec (y mod 100) 0),
    (Z.eqb_spec (y mod 400) 0); repeat case_decide; done.
Qed.

Lemma DayFromYear_succ y : DayFromYear (y + 1) = DayFromYear y + days_in_year y.
Proof.
  unfold DayFromYear, days_in_year, leap.
  destruct (Z.eqb_spec (y mod 4) 0), (Z.eqb_spec (y mod 100) 0),
    (Z.eqb_spec (y mod 400) 0); simpl; Z.div_mod_to_equations; lia.
Qed.

Lemma DayFromYear_mono y y' : y < y' → DayFromYear (y + 1) ≤ DayFromYear y'.
Proof. intros H. unfold DayFromYear. Z.div_mod_to_equations. lia. Qed.

(** [year_of_day d] is the year the day [d] falls in. *)
Lemma year_of_day_spec d :
  DayFromYear (year_of_day d) ≤ d < DayFromYear (year_of_day d + 1).
Proof.
  unfold year_of_day. cbv zeta.
  set (y0 := 1970 + 400 * d / 146097).
  assert (DayFromYear (y0 - 1) ≤ d) as Hlo
    by (unfold DayFromYear, y0; Z.div_mod_to_equations; lia).
  assert (d < DayFromYear (y0 + 2)) as Hhi
    by (unfold DayFromYear, y0; Z.div_mod_to_equations; lia).
  replace (y0 + 2) with (y0 + 1 + 1) in Hhi by lia.
  repeat case_decide.
  - lia.
  - lia.
  - replace (y0 - 1 + 1) with y0 by lia. lia.
Qed.

(** It is the only such year. *)
Lemma year_of_day_unique d y :
  DayFromYear y ≤ d < DayFromYear (y + 1) → year_of_day d = y.
Proof.
  intros H. pose proof (year_of_day_spec d) as H'.
  destruct (Z.lt_trichotomy (year_of_day d) y) as [L | [E | L]]; [|done|].
  - pose proof (DayFromYear_mono _ _ L). lia.
  - pose proof (DayFromYear_mono _ _ L). lia.
Qed.

Lemma sumZ_app l1 l2 : sumZ (l1 ++ l2) = sumZ l1 + sumZ l2.
Proof. unfold sumZ. induction l1 as [|a l1 IH]; simpl; lia. Qed.

Lemma sum_of_years a (n : nat) :
  sumZ (days_in_year <$> seqZ a (Z.of_nat n))
  = DayFromYear (a + Z.of_nat n) - DayFromYear a.
Proof.
  induction n as [|n IH].
  - simpl. replace (a + Z.of_nat 0) with a by lia. unfold sumZ. simpl. lia.
  - rewrite seqZ_S, fmap_app, sumZ_app, IH. simpl.
    replace (a + Z.of_nat (S n)) with (a + Z.of_nat n + 1) by lia.
    rewrite DayFromYear_succ. unfold sumZ. simpl. lia.
Qed.

(** The closed form of [DayFromYear] counts the days year by year. *)
Lemma days_before_year_closed y : days_before_year y = DayFromYear y.
Proof.
  assert (DayFromYear 1970 = 0) as H0 by reflexivity.
  unfold days_before_year. case_decide.
  - replace (y - 1970) with (Z.of_nat (Z.to_nat (y - 1970))) by lia.
    rewrite sum_of_years.
    replace (1970 + Z.of_nat (Z.to_nat (y - 1970))) with y by lia. lia.
  - replace (1970 - y) with (Z.of_nat (Z.to_nat (1970 - y))) by lia.
    rewrite sum_of_years.
    replace (y + Z.of_nat (Z.to_nat (1970 - y))) with 1970 by lia. lia.
Qed.

Lemma DayWithinYear_range t :
  0 ≤ DayWithinYear t < days_in_year (YearFromTime t).
Proof.
  unfold DayWithinYear, YearFromTime.
  pose proof (year_of_day_spec (Day t)) as H.
  rewrite DayFromYear_succ in H. lia.
Qed.

Ltac to_nat_constants :=
  repeat match goal with
         | |- context [Z.to_nat ?e] =>
             let v := eval vm_compute in (Z.to_nat e) in
             change (Z.to_nat e) with v
         | H : context [Z.to_nat ?e] |- _ =>
             let v := eval vm_compute in (Z.to_nat e) in
             change (Z.to_nat e) with v in H
         end.

(** The year, month and day of [toISOString] are the date of the
    calendar on which the day of [t] falls. *)
Lemma civil_of_time t :
  valid_date (YearFromTime t) (MonthFromTime t + 1) (DateFromTime t)
  ∧ days_from_civil (YearFromTime t) (MonthFromTime t + 1) (DateFromTime t)
    = Day t.
Proof.
  pose proof (DayWithinYear_range t) as R.
  unfold valid_date, days_from_civil, days_in_month, days_before_month,
    month_lengths.
  rewrite days_before_year_closed.
  unfold DateFromTime, MonthFromTime, InLeapYear, days_in_year in *.
  rewrite leap_year_leap. cbv zeta.
  assert (Day t = DayFromYear (YearFromTime t) + DayWithinYear t) as ->
    by (unfold DayWithinYear; lia).
  generalize dependent (DayWithinYear t). intros dwy R.
  destruct (leap (YearFromTime t));
    repeat case_decide; to_nat_constants; unfold sumZ; cbn; lia.
Qed.

(** And no other date falls on that day. *)
Lemma time_of_civil t y m d :
  valid_date y m d → days_from_civil y m d = Day t →
  YearFromTime t = y ∧ MonthFromTime t + 1 = m ∧ DateFromTime t = d.
Proof.
  intros [Hm Hd] Hc.
  unfold days_from_civil in Hc. rewrite days_before_year_closed in Hc.
  unfold days_in_month, days_before_month, month_lengths in *.
  pose proof (DayFromYear_succ y) as Hy. unfold days_in_year in Hy.
  assert (m = 1 ∨ m = 2 ∨ m = 3 ∨ m = 4 ∨ m = 5 ∨ m = 6 ∨ m = 7 ∨ m = 8
          ∨ m = 9 ∨ m = 10 ∨ m = 11 ∨ m = 12) as Hcases by lia.
  assert (YearFromTime t = y ∧ DayWithinYear t = Day t - DayFromYear y
          ∧ InLeapYear t = if leap y then 1 else 0) as (Y & W & L).
  { assert (YearFromTime t = y) as Y.
    { apply year_of_day_unique.
      destruct (leap y);
        repeat (destruct Hcases as [-> | Hcases]); try subst m;
        to_nat_constants; unfold sumZ in *; cbn in *; lia. }
    unfold DayWithinYear, InLeapYear. by rewrite Y, leap_year_leap. }
  unfold DateFromTime, MonthFromTime. rewrite W, L. cbv zeta.
  split; [done|].
  destruct (leap y);
    repeat (destruct Hcases as [-> | Hcases]); try subst m;
    to_nat_constants; unfold sumZ in *; cbn in Hd, Hc;
    repeat case_decide; lia.
Qed.

(** Every instant falls on a date. *)
Lemma every_instant_has_a_date t :
  ∃ y m d, valid_date y m d ∧ days_from_civil y m d = t / 86400000.
Proof.
  exists (YearFromTime t), (MonthFromTime t + 1), (DateFromTime t).
  apply civil_of_time.
Qed.

(** The years written with four digits are those of the time values
    from 0000-01-01T00:00:00.000Z to 9999-12-31T23:59:59.999Z. *)
Lemma four_digit_years t :
  -62167219200000 ≤ t ≤ 253402300799999 → 0 ≤ YearFromTime t ≤ 9999.
Proof.
  intros Ht. unfold YearFromTime.
  pose proof (year_of_day_spec (Day t)) as H.
  assert (-719528 ≤ Day t ≤ 2932896) as Hd
    by (unfold Day, msPerDay; Z.div_mod_to_equations; lia).
  unfold DayFromYear in H. Z.div_mod_to_equations. lia.
Qed.

(** *** The printed date *)

Lemma free_of_app c s1 s2 :
  free_of c s1 → free_of c s2 → free_of c (s1 +:+ s2).
Proof. induction s1 as [|a s1 IH]; simpl; [done|]. intros [? ?] ?. auto. Qed.

Lemma digit_not_T d : digit d ≠ "T"%char.
Proof.
  unfold digit.
  destruct (nth_in_or_default (Z.to_nat d) digit_chars "0"%char) as [H | ->];
    [|done].
  revert H. generalize (nth (Z.to_nat d) digit_chars "0"%char). intros a H.
  simpl in H. intuition (subst; discriminate).
Qed.

Lemma pad_free_of_T width n : free_of "T" (pad width n).
Proof.
  revert n. induction width as [|k IH]; intros n; simpl; [done|].
  apply free_of_app; [apply IH|]. simpl. split; [apply digit_not_T | done].
Qed.

Lemma iso_year_free_of_T y : free_of "T" (iso_year y).
Proof.
  unfold iso_year. case_decide; [apply pad_free_of_T|].
  apply free_of_app; [|apply pad_free_of_T].
  case_decide; simpl; done.
Qed.

Lemma iso_date_free_of_T t : free_of "T" (iso_date t).
Proof.
  unfold iso_date.
  apply free_of_app; [apply iso_year_free_of_T|].
  apply (free_of_app _ "-"); [simpl; done|].
  apply free_of_app; [apply pad_free_of_T|].
  apply (free_of_app _ "-"); [simpl; done|].
  apply pad_free_of_T.
Qed.

(** Splitting at a character cuts before its first occurrence. *)
Lemma split_at_first c s rest :
  free_of c s → split c (s +:+ String c rest) = s :: split c rest.
Proof.
  induction s as [|a s IH]; simpl.
  - intros _. by rewrite Ascii.eqb_refl.
  - intros [Ha Hs]. apply Ascii.eqb_neq in Ha as ->. by rewrite IH.
Qed.

(** [new Date(t).toISOString().split('T')[0]] is the date part. *)
Lemma today_is_iso_date t : today t = Str (iso_date t).
Proof.
  unfold today, toISOString.
  change (iso_date t +:+ "T" +:+ iso_time t +:+ "Z")
    with (iso_date t +:+ String "T" (iso_time t +:+ "Z")).
  by rewrite split_at_first by apply iso_date_free_of_T.
Qed.


(** The digit characters of [Date] are the decimal digits. *)
Lemma digit_decimal n : digit (n mod 10) = decimal_digit n.
Proof.
  unfold digit, decimal_digit.
  assert (0 ≤ n mod 10 < 10) as H by (apply Z.mod_pos_bound; lia).
  generalize dependent (n mod 10). intros r H.
  assert (r = 0 ∨ r = 1 ∨ r = 2 ∨ r = 3 ∨ r = 4 ∨ r = 5 ∨ r = 6 ∨ r = 7
          ∨ r = 8 ∨ r = 9) as Hr by lia.
  repeat (destruct Hr as [-> | Hr]); try subst r; reflexivity.
Qed.


End CalendarArithmetic.




(** On 3 November 2026 the date posted is [2026-11-03]. *)
Example datePosted_2026_11_03 :
  (λ job, doc_fields job !! "datePosted") <$> jobs (db world1)
  = [Some (BVal (Str "2026-11-03"))].
Proof. vm_compute. reflexivity. Qed.

(** ** Creation succeeds on text forms *)

Lemma set_path_errors now obj fields errs p :
  cast_fails obj p = false →
  (set_path now obj (fields, errs) p).2 = errs.
Proof.
  intros H. rewrite set_path_errors_cases, H. apply app_nil_r.
Qed.

Lemma foldl_set_path_errors now obj sch acc :
  Forall (λ p, cast_fails obj p = false) sch →
  (foldl (set_path now obj) acc sch).2 = acc.2.
Proof.
  intros F. revert acc. induction F as [|p sch Hp F IH]; intros [fields errs];
    [done|].
  cbn [foldl]. rewrite IH.
  by apply set_path_errors.
Qed.

Lemma validate_new_document sch now id obj :
  Forall (λ p, path_required p.2 = false) sch →
  Forall (λ p, cast_fails obj p = false) sch →
  validate sch (new_document sch now id obj) = true.
Proof.
  intros Hr Hc. unfold validate, new_document.
  pose proof (foldl_set_path_errors now obj sch (∅, []) Hc) as E.
  destruct (foldl (set_path now obj) (∅, []) sch) as [fields errs].
  simpl in *. subst errs.
  apply forallb_forall. intros p Hp. apply list_elem_of_In in Hp.
  rewrite Forall_forall in Hr. unfold path_valid. by rewrite (Hr p Hp).
Qed.

Lemma text_casts lists req obj k spec :
  text_form lists req → k ∉ lists →
  get obj k = get req k → path_type spec = SString →
  cast_fails obj (k, spec) = false.
Proof.
  intros Hf Hk Hg Ht. unfold cast_fails. simpl. rewrite Hg, Ht.
  unfold get. destruct (req !! k) as [v|] eqn:E; [|done].
  destruct (Hf k v E) as [[s ->] | [Hin _]]; [done | by destruct Hk].
Qed.

Lemma string_array_casts obj k spec (l : list string) :
  get obj k = Arr (Str <$> l) → path_type spec = SArrayOf SString →
  cast_fails obj (k, spec) = false.
Proof.
  intros Hg Ht. unfold cast_fails. cbn [fst snd]. rewrite Hg, Ht.
  by rewrite cast_string_array.
Qed.

Lemma list_casts lists req obj k spec :
  text_form lists req →
  get obj k = as_array (get_or req k (Arr [])) →
  path_type spec = SArrayOf SString →
  cast_fails obj (k, spec) = false.
Proof.
  intros Hf Hg Ht. unfold get_or, get in Hg.
  destruct (req !! k) as [v|] eqn:E.
  - destruct (Hf k v E) as [[s ->] | [_ [l ->]]].
    + by apply (string_array_casts _ _ _ [s]).
    + by apply (string_array_casts _ _ _ l).
  - by apply (string_array_casts _ _ _ []).
Qed.

Section JobsSucceed.
Context {D S : Type} `{!BlobStore D}.

(** A job form of text fields whose files all upload is answered 201. *)
Lemma post_api_jobs_succeeds (w : World D S) (req : gmap string value)
    (files : list File) (links : list string) (d' : D) :
  text_form ["certifications"; "tools"] req →
  uploads (drive w) files links d' →
  ∃ w',
    post_api_jobs w req (Some files)
    = (json 201 [ ("message", Str "Job created successfully");
                  ("jobId", get req "jobId");
                  ("attachmentLinks", Arr (Str <$> links)) ], w')
    ∧ drive w' = d'.
Proof.
  intros Hf U. unfold post_api_jobs.
  rewrite (upload_attachments_complete _ _ [] _ _ U). simpl app.
  unfold save. rewrite validate_new_document.
  - eexists. split; reflexivity.
  - by repeat constructor.
  - repeat (apply Forall_cons; split); [ .. | done ].
    all: try (eapply text_casts; [exact Hf | | reflexivity | reflexivity];
              rewrite !elem_of_cons, elem_of_nil; intuition discriminate).
    all: try (eapply list_casts; [exact Hf | reflexivity | reflexivity]).
    + by apply (string_array_casts _ _ _ links).
    + unfold cast_fails. cbn [fst snd path_type].
      change (get _ "datePosted") with (today (now w)).
      by rewrite today_is_iso_date.
Qed.

End JobsSucceed.

Section CandidatesSucceed.
Context {D S : Type} `{!BlobStore D}.

(** A candidate form of text fields, with a score that is empty or reads
    as a number, and no resume, is answered 201 and stored. *)
Lemma post_api_candidates_succeeds (w : World D S) (req : gmap string value) :
  text_form ["skills"; "certifications"; "tools"] req →
  (∀ s, req !! "totalScore" = Some (Str s) →
     s = "" ∨ Number.isNaN (Number.StringToNumber s) = false) →
  ∃ w' candidate,
    post_api_candidates w req None
    = (json 201 [ ("message", Str "Candidate applied successfully!");
                  ("resumeLink", Null) ], w')
    ∧ candidates (db w') = candidates (db w) ++ [candidate].
Proof.
  intros Hf Hn. unfold post_api_candidates.
  unfold save. rewrite validate_new_document.
  - eexists _, _. split; reflexivity.
  - by repeat constructor.
  - repeat (apply Forall_cons; split); [ .. | done ].
    all: try (eapply text_casts; [exact Hf | | reflexivity | reflexivity];
              rewrite !elem_of_cons, elem_of_nil; intuition discriminate).
    all: try (eapply list_casts; [exact Hf | reflexivity | reflexivity]).
    + unfold cast_fails. cbn [fst snd path_type].
      change (get _ "totalScore") with (get req "totalScore").
      unfold get. destruct (req !! "totalScore") as [v|] eqn:E; [|done].
      destruct (Hf _ _ E) as [[s ->] | [Hin _]].
      * change (match cast SNumber (Str s) with
                | Some _ => false
                | None => true
                end = false).
        change (cast SNumber (Str s)) with (BVal <$> castNumber (Str s)).
        destruct (decide (s = "")) as [-> | Hne]; [done|].
        destruct (Hn s eq_refl) as [-> | Hs]; [done|].
        by rewrite (castNumber_text s Hne), Hs.
      * rewrite !elem_of_cons, elem_of_nil in Hin. intuition discriminate.
    + reflexivity.
Qed.

End CandidatesSucceed.

(** ** The handlers on concrete requests *)

(** The job form of [world0] is answered 201 with the two links. *)
Example post_api_jobs_on_job_form :
  (post_api_jobs world0 job_form (Some job_files)).1
  = json 201 [ ("message", Str "Job created successfully");
               ("jobId", Str "J1");
               ("attachmentLinks",
                 Arr [Str "https://drive.google.com/file/d/0/view";
                      Str "https://drive.google.com/file/d/1/view"]) ].
Proof. vm_compute. reflexivity. Qed.

(** A file the drive refuses aborts the request: the answer is 500, the
    first file stays uploaded and no job is stored. *)
Example post_api_jobs_upload_refused :
  let r := post_api_jobs world0 job_form (Some [file "cv.pdf"; file ""]) in
  status r.1 = 500
  ∧ length (drive r.2) = 1%nat
  ∧ jobs (db r.2) = [].
Proof. vm_compute. done. Qed.

(** One candidate-to-sheet request appends one row to the sheet. *)
Example candidateToSheet_appends_one_row :
  let r :=
    post_api_candidateToSheet world0
      (object [ ("candidateId", Str "C1"); ("firstName", Str "Ann");
                ("skills", Arr [Str "sql"; Str "go"]) ]) in
  status r.1 = 200
  ∧ sheets r.2
    = [ ("1Ufx8chsZzW2SKYPc_AHueDwJI9B7G6xbzYhk8lJgF5Y", "Sheet1!A1",
         [ Str "C1"; Str "Ann"; Str "Not Specified"; Str "Not Specified";
           Str "Not Specified"; Str "Not Specified"; Str "Not Specified";
           Str "Not Specified"; Str "Not Specified"; Str "0";
           Str "sql, go"; Str "Not Specified"; Str "Not Specified" ]) ].
Proof. vm_compute. done. Qed.

(** A list of numbers is joined as the numbers print. *)
Example candidateToSheet_joins_numbers :
  let r :=
    post_api_candidateToSheet world0
      (object [ ("skills", Arr [Num (Number.of_Z (10 ^ 21));
                                Num (Number.StringToNumber "8.5")]) ]) in
  (λ row, row.2 !! 10%nat) <$> sheets r.2 = [Some (Str "1e+21, 8.5")].
Proof. vm_compute. reflexivity. Qed.

(** A score with a fraction, or with blanks around it, is stored as the
    number it reads as, and the candidate is created. *)
Example post_api_candidates_fraction_score :
  let r :=
    post_api_candidates world0
      (object [("candidateId", Str "C7"); ("totalScore", Str " 42.25 ")]) None in
  status r.1 = 201
  ∧ (λ c, doc_fields c !! "totalScore") <$> candidates (db r.2)
    = [Some (BVal (Num (Number.StringToNumber "42.25")))]
  ∧ Number.toString (Number.StringToNumber "42.25") = "42.25".
Proof. vm_compute. done. Qed.

(** A score that is no numeral fails the cast: 500, nothing stored. *)
Example post_api_candidates_bad_score :
  let r :=
    post_api_candidates world0
      (object [("candidateId", Str "C7"); ("totalScore", Str "high")]) None in
  status r.1 = 500 ∧ candidates (db r.2) = [].
Proof. vm_compute. done. Qed.

(** An empty list of evaluation results passes the check and is saved. *)
Example saveEvaluation_empty_results :
  status (post_api_saveEvaluation world0
            (object [("candidateId", Str "C1"); ("evaluationResults", Arr [])])).1
  = 201.
Proof. vm_compute. reflexivity. Qed.

(* ================================================================== *)
(** * Further properties of the handlers *)
(* ================================================================== *)

(** ** Jobs: uploads, storage, listing *)

Section MoreJobs.

Context {D S : Type} `{!BlobStore D}.
Implicit Types (w : World D S) (d : D).

(** The loop stops at the first upload that fails. *)
Lemma upload_attachments_stops d before links d1 file d2 after acc :
  uploads d before links d1 →
  files_create d1 (attachment_upload file) = (None, d2) →
  upload_attachments d (before ++ file :: after) acc = (None, d2).
Proof.
  intros U. revert acc. induction U as [|d d1 d' f fs k ks Hc U IH]; intros acc Hf.
  - simpl. by rewrite Hf.
  - simpl. rewrite Hc. by apply IH.
Qed.

Lemma job_text_path (k : string) :
  k ∈ job_text_fields → (k, plain SString) ∈ jobSchema.
Proof.
  unfold job_text_fields. rewrite !elem_of_cons, elem_of_nil.
  intros H. apply list_elem_of_In. simpl.
  repeat (destruct H as [-> | H]; [tauto|]). done.
Qed.

(** The object the job handler builds holds each text field as read. *)
Lemma post_api_jobs_text w req ofiles resp w' k :
  post_api_jobs w req ofiles = (resp, w') → status resp = 201 →
  k ∈ job_text_fields →
  ∃ job, jobs (db w') = jobs (db w) ++ [job]
         ∧ doc_fields job !! k = path_value (now w) req k (plain SString).
Proof.
  unfold post_api_jobs. intros H Hs Hk.
  destruct ofiles as [fs|]; [|by injection H as <- <-].
  destruct (upload_attachments (drive w) fs []) as [[links|] d'] eqn:U;
    [|by injection H as <- <-].
  destruct (save jobSchema _ _) as [jobs'|] eqn:Sv; [|by injection H as <- <-].
  injection H as <- <-.
  apply save_inv in Sv as [-> _].
  eexists. split; [reflexivity|].
  rewrite (new_document_lookup _ _ _ _ k (plain SString) jobSchema_NoDup
             (job_text_path k Hk)).
  unfold path_value.
  unfold job_text_fields in Hk. rewrite !elem_of_cons, elem_of_nil in Hk.
  repeat (destruct Hk as [-> | Hk]; [reflexivity|]). done.
Qed.

End MoreJobs.

(** A path that fails to cast leaves an error, and the document does not
    validate. *)
Lemma validate_fails sch now id obj p :
  p ∈ sch → cast_fails obj p = true →
  validate sch (new_document sch now id obj) = false.
Proof.
  intros Hp Hc.
  destruct (validate sch (new_document sch now id obj)) eqn:V; [|done].
  apply valid_document_casts in V. rewrite Forall_forall in V.
  by rewrite (V p Hp) in Hc.
Qed.

(** X1. When the upload of one attachment fails, the job request is
    answered 500 and nothing is stored; the files before it stay
    uploaded, and the files after it are never sent: the drive is left as
    the failed call left it. *)
Theorem X1_failed_upload_aborts_the_job
    {D S : Type} `{!BlobStore D} (w : World D S) (req : gmap string value)
    (before after : list File) (file : File) (links : list string) (d1 d2 : D) :
  uploads (drive w) before links d1 →
  files_create d1 (attachment_upload file) = (None, d2) →
  ∃ resp w',
    post_api_jobs w req (Some (before ++ file :: after)) = (resp, w')
    ∧ status resp = 500
    ∧ db w' = db w
    ∧ drive w' = d2.
Proof.
  intros U Hf. unfold post_api_jobs.
  rewrite (upload_attachments_stops _ _ _ _ _ _ after [] U Hf).
  by eexists _, _.
Qed.

Lemma X1_witness :
  ∃ resp w',
    post_api_jobs world0 job_form
      (Some ([file "cv.pdf"] ++ file "" :: [file "notes.txt"])) = (resp, w')
    ∧ status resp = 500
    ∧ db w' = db world0
    ∧ drive w' = [attachment_upload (file "cv.pdf")].
Proof.
  apply (X1_failed_upload_aborts_the_job world0 job_form [file "cv.pdf"]
           [file "notes.txt"] (file "")
           ["https://drive.google.com/file/d/0/view"]
           [attachment_upload (file "cv.pdf")]).
  - econstructor; [reflexivity | constructor].
  - reflexivity.
Defined.

(** X2. A job form whose fields are text (certifications and tools
    possibly repeated), with attachments that all upload, is answered
    201; the job is appended to the collection, every text field that
    was submitted is stored as submitted, and a text field that was
    omitted is absent from the document. *)
Theorem X2_text_job_form_is_stored
    {D S : Type} `{!BlobStore D} (w : World D S) (req : gmap string value)
    (files : list File) (links : list string) (d' : D) :
  text_form ["certifications"; "tools"] req →
  uploads (drive w) files links d' →
  ∃ w' job,
    post_api_jobs w req (Some files)
    = (json 201 [ ("message", Str "Job created successfully");
                  ("jobId", get req "jobId");
                  ("attachmentLinks", Arr (Str <$> links)) ], w')
    ∧ drive w' = d'
    ∧ jobs (db w') = jobs (db w) ++ [job]
    ∧ (∀ k s, k ∈ job_text_fields → req !! k = Some (Str s) →
         doc_fields job !! k = Some (BVal (Str s)))
    ∧ (∀ k, k ∈ job_text_fields → req !! k = None →
         doc_fields job !! k = None).
Proof.
  intros Hf U.
  destruct (post_api_jobs_succeeds w req files links d' Hf U) as (w' & H & Hd).
  assert (∃ job, jobs (db w') = jobs (db w) ++ [job]
                 ∧ ∀ k, k ∈ job_text_fields →
                     doc_fields job !! k
                     = path_value (now w) req k (plain SString)) as (job & Hj & Hk).
  { destruct (post_api_jobs_text w req _ _ _ "jobId" H eq_refl) as (job & Hj & _).
    { apply list_elem_of_In. simpl. tauto. }
    exists job. split; [done|]. intros k Hk.
    destruct (post_api_jobs_text w req _ _ _ k H eq_refl Hk) as (job' & Hj' & E).
    rewrite Hj in Hj'. apply app_inj_tail in Hj' as [_ <-]. done. }
  exists w', job. repeat split; try done.
  - intros k s Hin E. rewrite (Hk k Hin). unfold path_value.
    by rewrite (get_present _ _ _ E).
  - intros k Hin E. rewrite (Hk k Hin). unfold path_value.
    by rewrite (get_absent _ _ E).
Qed.

Lemma X2_witness :
  ∃ w' job,
    post_api_jobs world0 job_form (Some job_files)
    = (json 201 [ ("message", Str "Job created successfully");
                  ("jobId", get job_form "jobId");
                  ("attachmentLinks",
                    Arr (Str <$> ["https://drive.google.com/file/d/0/view";
                                  "https://drive.google.com/file/d/1/view"])) ],
       w')
    ∧ drive w' = attachment_upload <$> job_files
    ∧ jobs (db w') = jobs (db world0) ++ [job]
    ∧ (∀ k s, k ∈ job_text_fields → job_form !! k = Some (Str s) →
         doc_fields job !! k = Some (BVal (Str s)))
    ∧ (∀ k, k ∈ job_text_fields → job_form !! k = None →
         doc_fields job !! k = None).
Proof.
  apply (X2_text_job_form_is_stored world0 job_form job_files).
  - intros k v E. unfold job_form, object in E.
    apply elem_of_list_to_map_2 in E. apply list_elem_of_In in E. simpl in E.
    destruct E as [E|[E|[E|[E|[E|[]]]]]]; injection E as <- <-.
    + left. by eexists.
    + left. by eexists.
    + left. by eexists.
    + right. split; [apply list_elem_of_In; simpl; tauto|].
      by exists ["PMP"; "CKA"].
    + left. by eexists.
  - econstructor; [reflexivity|]. econstructor; [reflexivity|]. constructor.
Defined.

(** X3. A job form in which a text field arrives as a list (the field
    was repeated) cannot be stored: once the attachments have all been
    uploaded the save is rejected, the answer is 500, no job is stored,
    and the uploaded files stay in the drive. *)
Theorem X3_repeated_text_field_is_500_after_uploads
    {D S : Type} `{!BlobStore D} (w : World D S) (req : gmap string value)
    (files : list File) (links : list string) (d' : D)
    (k : string) (l : list value) :
  k ∈ job_text_fields →
  req !! k = Some (Arr l) →
  uploads (drive w) files links d' →
  ∃ resp w',
    post_api_jobs w req (Some files) = (resp, w')
    ∧ status resp = 500
    ∧ jobs (db w') = jobs (db w)
    ∧ drive w' = d'.
Proof.
  intros Hk E U. unfold post_api_jobs.
  rewrite (upload_attachments_complete _ _ [] _ _ U). simpl app.
  unfold save.
  match goal with
  | |- context [new_document _ _ _ ?o] => set (obj := o)
  end.
  rewrite (validate_fails jobSchema _ _ obj (k, plain SString)
             (job_text_path k Hk)).
  - by eexists _, _.
  - unfold cast_fails. cbn [fst snd plain path_type].
    assert (get obj k = Arr l) as ->; [|done].
    rewrite <- (get_present _ _ _ E).
    unfold job_text_fields in Hk. rewrite !elem_of_cons, elem_of_nil in Hk.
    repeat (destruct Hk as [-> | Hk]; [reflexivity|]). done.
Qed.

Lemma X3_witness :
  ∃ resp w',
    post_api_jobs world0
      (object [("jobId", Arr [Str "J1"; Str "J2"])]) (Some job_files)
    = (resp, w')
    ∧ status resp = 500
    ∧ jobs (db w') = jobs (db world0)
    ∧ drive w' = attachment_upload <$> job_files.
Proof.
  apply (X3_repeated_text_field_is_500_after_uploads world0 _ job_files
           ["https://drive.google.com/file/d/0/view";
            "https://drive.google.com/file/d/1/view"] _
           "jobId" [Str "J1"; Str "J2"]).
  - apply list_elem_of_In. simpl. tauto.
  - reflexivity.
  - econstructor; [reflexivity|]. econstructor; [reflexivity|]. constructor.
Defined.

(** ** Jobs: the listing and the lookup by id *)

Section Listing.

Context {D S : Type} `{!BlobStore D}.
Implicit Types (w : World D S).

(** A job request that is not answered 201 stores no job. *)
Lemma post_api_jobs_not_created w req ofiles resp w' :
  post_api_jobs w req ofiles = (resp, w') → status resp ≠ 201 →
  jobs (db w') = jobs (db w).
Proof.
  unfold post_api_jobs. intros H Hs.
  destruct ofiles as [fs|]; [|by injection H as <- <-].
  destruct (upload_attachments (drive w) fs []) as [[links|] d'] eqn:U;
    [|by injection H as <- <-].
  destruct (save jobSchema _ _) as [jobs'|] eqn:Sv; [|by injection H as <- <-].
  injection H as <- <-. by destruct Hs.
Qed.

End Listing.

(** X4. The listing of GET /api/getJobs follows the job requests: a
    request answered 201 adds exactly one job at the end of the listing,
    carrying the attachment links of the answer; a request answered
    otherwise leaves the listing as it was (no partial job is listed). *)
Theorem X4_listing_follows_job_requests
    {D S : Type} `{!BlobStore D} (w w' : World D S)
    (req : gmap string value) (files : option (list File)) (resp : Response) :
  post_api_jobs w req files = (resp, w') →
  (status resp = 201 →
     ∃ job,
       listing (get_api_getJobs w').1
       = listing (get_api_getJobs w).1 ++ [toJSON job]
       ∧ is_Some (properties resp !! "attachmentLinks")
       ∧ json_fields job !! "attachmentLinks"
         = properties resp !! "attachmentLinks")
  ∧ (status resp ≠ 201 →
     listing (get_api_getJobs w').1 = listing (get_api_getJobs w).1).
Proof.
  intros H. split.
  - intros Hs.
    destruct (post_api_jobs_created _ _ _ _ _ H Hs)
      as (fs & links & obj & _ & _ & -> & Hj & _ & _ & Ha & _).
    eexists. unfold get_api_getJobs, listing. cbn [fst status body].
    rewrite Hj, fmap_app. split; [reflexivity|].
    split; [by eexists|].
    rewrite json_fields_lookup by done.
    rewrite (new_document_lookup _ _ _ _ "attachmentLinks"
               (plain (SArrayOf SString)) jobSchema_NoDup).
    + by rewrite (path_value_string_array _ _ _ _ Ha).
    + apply list_elem_of_In. simpl. tauto.
  - intros Hs. unfold get_api_getJobs, listing. cbn [fst status body].
    by rewrite (post_api_jobs_not_created _ _ _ _ _ H Hs).
Qed.

Lemma X4_witness :
  ∃ job,
    listing (get_api_getJobs world1).1
    = listing (get_api_getJobs world0).1 ++ [toJSON job]
    ∧ is_Some (properties (post_api_jobs world0 job_form (Some job_files)).1
                 !! "attachmentLinks")
    ∧ json_fields job !! "attachmentLinks"
      = properties (post_api_jobs world0 job_form (Some job_files)).1
          !! "attachmentLinks".
Proof.
  assert (post_api_jobs world0 job_form (Some job_files)
          = ((post_api_jobs world0 job_form (Some job_files)).1, world1)) as H
    by reflexivity.
  apply (proj1 (X4_listing_follows_job_requests world0 world1 job_form
                  (Some job_files) _ H)).
  reflexivity.
Defined.

(** ** ObjectIds written and read *)

Lemma hex_value_digit (m : N) :
  (m < 16)%N → hex_value (nth (N.to_nat m) hex_chars "0"%char) = Some m.
Proof.
  intros Hm. replace m with (N.of_nat (N.to_nat m)) at 2 by lia.
  assert (N.to_nat m < 16)%nat as Hn by lia.
  revert Hn. generalize (N.to_nat m). intros n Hn.
  do 16 (destruct n as [|n]; [reflexivity|]). lia.
Qed.

Lemma parse_hex_app s1 s2 acc :
  parse_hex (s1 +:+ s2) acc = parse_hex s1 acc ≫= parse_hex s2.
Proof.
  revert acc. induction s1 as [|c s1 IH]; intros acc; simpl; [done|].
  destruct (hex_value c); simpl; [apply IH | done].
Qed.

(** Reading back the [k] digits written for [n] gives [n] modulo
    [16^k], after the digits already read. *)
Lemma parse_hex_hex (k : nat) (n acc : N) :
  parse_hex (hex k n) acc = Some (acc * 16 ^ N.of_nat k + n mod 16 ^ N.of_nat k)%N.
Proof.
  revert n acc. induction k as [|k IH]; intros n acc.
  - simpl. f_equal. rewrite N.mod_1_r. lia.
  - cbn [hex]. rewrite parse_hex_app, IH.
    cbn [mbind option_bind parse_hex].
    rewrite hex_value_digit by (apply N.mod_lt; lia).
    cbn [mbind option_bind]. f_equal.
    rewrite Nat2N.inj_succ, N.pow_succ_r'.
    rewrite (N.Div0.mod_mul_r n 16). lia.
Qed.

Lemma length_string_app (s1 s2 : string) :
  String.length (s1 +:+ s2) = (String.length s1 + String.length s2)%nat.
Proof. induction s1 as [|c s1 IH]; simpl; [done|]. by rewrite IH. Qed.

Lemma length_hex (k : nat) (n : N) : String.length (hex k n) = k.
Proof.
  revert n. induction k as [|k IH]; intros n; [done|].
  cbn [hex]. rewrite length_string_app, IH. simpl. lia.
Qed.

(** The 24 digits of an id are read back as the id. *)
Lemma castObjectId_hex (n : N) :
  (n < 16 ^ 24)%N → castObjectId (hex 24 n) = Some n.
Proof.
  intros Hn. unfold castObjectId.
  rewrite decide_True by apply length_hex.
  rewrite parse_hex_hex. f_equal.
  change (N.of_nat 24) with 24%N. rewrite N.mod_small by done. lia.
Qed.

Lemma find_by_id (l : list Document) (d : Document) :
  NoDup (doc_id <$> l) → d ∈ l →
  find (fun x => N.eqb (doc_id x) (doc_id d)) l = Some d.
Proof.
  induction l as [|a l IH]; intros Hnd Hd; [by apply elem_of_nil in Hd|].
  rewrite fmap_cons in Hnd. apply NoDup_cons in Hnd as [Ha Hnd].
  simpl. apply elem_of_cons in Hd as [<- | Hd].
  - by rewrite N.eqb_refl.
  - destruct (N.eqb_spec (doc_id a) (doc_id d)) as [E|_]; [|by apply IH].
    destruct Ha. rewrite E. apply list_elem_of_fmap. by exists d.
Qed.

(** X5. Every job that GET /api/getJobs lists can be fetched with GET
    /api/jobs/:id by the [_id] the listing shows for it: the answer is
    200 with the same document.  (Ids are distinct and fit the 24
    hexadecimal digits of an ObjectId.) *)
Theorem X5_listed_job_is_fetched_by_its_id
    {D S : Type} (w : World D S) (job : Document) (id : string) :
  NoDup (doc_id <$> jobs (db w)) →
  (doc_id job < 16 ^ 24)%N →
  job ∈ jobs (db w) →
  json_fields job !! "_id" = Some (Str id) →
  toJSON job ∈ listing (get_api_getJobs w).1
  ∧ get_api_jobs_id w id = ({| status := 200; body := toJSON job |}, w).
Proof.
  intros Hnd Hid Hin Hj. split.
  - unfold get_api_getJobs, listing. cbn [fst status body].
    apply list_elem_of_fmap. by exists job.
  - unfold json_fields in Hj. rewrite lookup_insert_eq in Hj.
    assert (id = hex 24 (doc_id job)) as ->.
    { apply (f_equal (fun o => match o with
                               | Some (Str s) => s
                               | _ => EmptyString
                               end)) in Hj. by symmetry. }
    unfold get_api_jobs_id, findById.
    rewrite (castObjectId_hex _ Hid). simpl.
    by rewrite (find_by_id _ _ Hnd Hin).
Qed.

Lemma X5_witness :
  ∃ job,
    jobs (db world3) = [job]
    ∧ toJSON job ∈ listing (get_api_getJobs world3).1
    ∧ get_api_jobs_id world3 "000000000000000000000001"
      = ({| status := 200; body := toJSON job |}, world3).
Proof.
  assert (∃ job, jobs (db world3) = [job]) as [job Hj]
    by (eexists; vm_compute; reflexivity).
  exists job. split; [exact Hj|].
  apply (X5_listed_job_is_fetched_by_its_id world3 job).
  - rewrite Hj. apply NoDup_singleton.
  - assert (doc_id <$> jobs (db world3) = [1%N]) as E
      by (vm_compute; reflexivity).
    rewrite Hj in E. injection E as ->. reflexivity.
  - rewrite Hj. apply elem_of_cons. by left.
  - assert (doc_id <$> jobs (db world3) = [1%N]) as E
      by (vm_compute; reflexivity).
    rewrite Hj in E. injection E as E.
    unfold json_fields. rewrite lookup_insert_eq, E. reflexivity.
Defined.

(** ** Candidates: the resume, the stored fields, the listing *)

Section MoreCandidates.

Context {D S : Type} `{!BlobStore D}.
Implicit Types (w : World D S).

(** What a candidate request that is answered 201 did with the resume. *)
Lemma post_api_candidates_resume w req file resp w' :
  post_api_candidates w req file = (resp, w') → status resp = 201 →
  ∃ obj resumeLink,
    resp = json 201 [ ("message", Str "Candidate applied successfully!");
                      ("resumeLink", resumeLink) ]
    ∧ candidates (db w')
      = candidates (db w)
          ++ [new_document candidateSchema (now w) (next_id (db w)) obj]
    ∧ get obj "resumeLink" = resumeLink
    ∧ match file with
      | None => resumeLink = Null ∧ drive w' = drive w
      | Some f =>
          ∃ link,
            files_create (drive w) (resume_upload req f) = (Some link, drive w')
            ∧ resumeLink = Str link
      end.
Proof.
  unfold post_api_candidates. intros H Hs.
  destruct file as [f|].
  - fold (resume_upload req f) in H.
    destruct (files_create (drive w) (resume_upload req f)) as [[link|] d'] eqn:E;
      cbn [fmap option_fmap option_map] in H; [|by injection H as <- <-].
    destruct (save candidateSchema _ _) as [cs|] eqn:Sv;
      [|by injection H as <- <-].
    injection H as <- <-. apply save_inv in Sv as [-> _].
    eexists _, (Str link). repeat split; try reflexivity.
    by exists link.
  - destruct (save candidateSchema _ _) as [cs|] eqn:Sv;
      [|by injection H as <- <-].
    injection H as <- <-. apply save_inv in Sv as [-> _].
    eexists _, Null. repeat split; reflexivity.
Qed.

(** A candidate request that is not answered 201 stores no candidate. *)
Lemma post_api_candidates_not_created w req file resp w' :
  post_api_candidates w req file = (resp, w') → status resp ≠ 201 →
  candidates (db w') = candidates (db w).
Proof.
  unfold post_api_candidates. intros H Hs.
  match type of H with
  | (match ?u with _ => _ end) = _ => destruct u as [[resumeLink|] d']
  end; [|by injection H as <- <-].
  destruct (save candidateSchema _ _) as [cs|] eqn:Sv;
    [|by injection H as <- <-].
  injection H as <- <-. by destruct Hs.
Qed.

End MoreCandidates.

(** X6. For every candidate that is created, the [resumeLink] of the
    answer is the one stored: [null], with the drive untouched, when no
    resume came with the request; otherwise the link the drive answered
    to the upload, made under the name
    [firstName_lastName_Resume.pdf] whatever the file was called. *)
Theorem X6_resume_link_answered_is_stored
    {D S : Type} `{!BlobStore D} (w w' : World D S)
    (req : gmap string value) (file : option File) (resp : Response) :
  post_api_candidates w req file = (resp, w') →
  status resp = 201 →
  ∃ candidate resumeLink,
    candidates (db w') = candidates (db w) ++ [candidate]
    ∧ properties resp !! "resumeLink" = Some resumeLink
    ∧ doc_fields candidate !! "resumeLink" = Some (BVal resumeLink)
    ∧ match file with
      | None => resumeLink = Null ∧ drive w' = drive w
      | Some f =>
          ∃ link,
            files_create (drive w) (resume_upload req f) = (Some link, drive w')
            ∧ resumeLink = Str link
      end.
Proof.
  intros H Hs.
  destruct (post_api_candidates_resume _ _ _ _ _ H Hs)
    as (obj & resumeLink & -> & Hc & Hg & Hf).
  eexists _, resumeLink. split; [exact Hc|].
  split; [reflexivity|]. split; [|exact Hf].
  rewrite (new_document_lookup _ _ _ _ "resumeLink" (plain SString)
             candidateSchema_NoDup).
  - unfold path_value. rewrite Hg.
    destruct file as [f|].
    + by destruct Hf as (link & _ & ->).
    + by destruct Hf as [-> _].
  - apply list_elem_of_In. simpl. do 14 right. left. reflexivity.
Qed.

Lemma X6_witness :
  ∃ candidate resumeLink,
    candidates (db (post_api_candidates world1 ann_form (Some (file "a.docx"))).2)
    = candidates (db world1) ++ [candidate]
    ∧ properties (post_api_candidates world1 ann_form (Some (file "a.docx"))).1
        !! "resumeLink" = Some resumeLink
    ∧ doc_fields candidate !! "resumeLink" = Some (BVal resumeLink)
    ∧ ∃ link,
        files_create (drive world1) (resume_upload ann_form (file "a.docx"))
        = (Some link,
           drive (post_api_candidates world1 ann_form (Some (file "a.docx"))).2)
        ∧ resumeLink = Str link.
Proof.
  apply (X6_resume_link_answered_is_stored world1 _ ann_form
           (Some (file "a.docx"))
           (post_api_candidates world1 ann_form (Some (file "a.docx"))).1);
    reflexivity.
Defined.

(** The name under which the resume of Ann Lee goes up. *)
Example resume_upload_name :
  resource_name (resume_upload ann_form (file "a.docx")) = "Ann_Lee_Resume.pdf"
  ∧ resource_name (resume_upload ∅ (file "a.docx"))
    = "undefined_undefined_Resume.pdf".
Proof. split; reflexivity. Qed.

(** X7. A candidate form whose fields are text, with a score that is
    empty or reads as a number and no resume, is answered 201 with a
    [null] resume link, whether or not the job it refers to exists.  The
    drive and the jobs are untouched; the candidate is appended to the
    collection with its job reference and every text field as submitted,
    and the score, submitted as text, stored as the number it reads as
    ([null] for the empty text). *)
Theorem X7_text_candidate_form_is_stored
    {D S : Type} `{!BlobStore D} (w : World D S) (req : gmap string value) :
  text_form ["skills"; "certifications"; "tools"] req →
  (∀ s, req !! "totalScore" = Some (Str s) →
     s = "" ∨ Number.isNaN (Number.StringToNumber s) = false) →
  ∃ w' candidate,
    post_api_candidates w req None
    = (json 201 [ ("message", Str "Candidate applied successfully!");
                  ("resumeLink", Null) ], w')
    ∧ drive w' = drive w
    ∧ jobs (db w') = jobs (db w)
    ∧ candidates (db w') = candidates (db w) ++ [candidate]
    ∧ (∀ k s, k ∈ "jobId" :: candidate_text_fields → req !! k = Some (Str s) →
         doc_fields candidate !! k = Some (BVal (Str s)))
    ∧ (∀ s, req !! "totalScore" = Some (Str s) → s ≠ "" →
         doc_fields candidate !! "totalScore"
         = Some (BVal (Num (Number.StringToNumber s))))
    ∧ (req !! "totalScore" = Some (Str "") →
         doc_fields candidate !! "totalScore" = Some (BVal Null)).
Proof.
  intros Hf Hn.
  destruct (post_api_candidates_succeeds w req Hf Hn) as (w' & c0 & H & _).
  destruct (post_api_candidates_created _ _ _ _ _ H eq_refl)
    as (obj & Hc & Hj & Hg & _).
  destruct (post_api_candidates_resume _ _ _ _ _ H eq_refl)
    as (_ & _ & _ & _ & _ & _ & Hd).
  assert (∀ v, req !! "totalScore" = Some v →
            doc_fields (new_document candidateSchema (now w) (next_id (db w)) obj)
              !! "totalScore"
            = match v with Undefined => None | _ => cast SNumber v end) as Hscore.
  { intros v E.
    rewrite (new_document_lookup _ _ _ _ "totalScore" (plain SNumber)
               candidateSchema_NoDup candidate_totalScore_path).
    unfold path_value. rewrite Hg by (rewrite !elem_of_cons; tauto).
    rewrite (get_present _ _ _ E). by destruct v. }
  eexists w', _. split; [exact H|]. split; [exact Hd|]. split; [exact Hj|].
  split; [exact Hc|]. split; [|split].
  - intros k s Hk E.
    rewrite (new_document_lookup _ _ _ _ k (plain SString)
               candidateSchema_NoDup (candidate_text_path k Hk)).
    apply path_value_text. rewrite Hg.
    + by apply get_present.
    + rewrite !elem_of_cons in *. tauto.
  - intros s E Hs. rewrite (Hscore _ E).
    change (cast SNumber (Str s)) with (BVal <$> castNumber (Str s)).
    rewrite (castNumber_text s Hs).
    destruct (Hn s E) as [-> | ->]; done.
  - intros E. by rewrite (Hscore _ E).
Qed.

Lemma X7_witness :
  ∃ w' candidate,
    post_api_candidates world0 ann_form None
    = (json 201 [ ("message", Str "Candidate applied successfully!");
                  ("resumeLink", Null) ], w')
    ∧ drive w' = drive world0
    ∧ jobs (db w') = jobs (db world0)
    ∧ candidates (db w') = candidates (db world0) ++ [candidate]
    ∧ (∀ k s, k ∈ "jobId" :: candidate_text_fields →
         ann_form !! k = Some (Str s) →
         doc_fields candidate !! k = Some (BVal (Str s)))
    ∧ (∀ s, ann_form !! "totalScore" = Some (Str s) → s ≠ "" →
         doc_fields candidate !! "totalScore"
         = Some (BVal (Num (Number.StringToNumber s))))
    ∧ (ann_form !! "totalScore" = Some (Str "") →
         doc_fields candidate !! "totalScore" = Some (BVal Null)).
Proof.
  apply (X7_text_candidate_form_is_stored world0 ann_form).
  - intros k v E. unfold ann_form, object in E.
    apply elem_of_list_to_map_2 in E. apply list_elem_of_In in E. simpl in E.
    left. repeat (destruct E as [E|E]; [injection E as <- <-; by eexists|]).
    done.
  - intros s E. right.
    assert (s = "8.5") as ->.
    { apply (f_equal (λ o, match o with Some (Str t) => t | _ => "" end)) in E.
      by symmetry. }
    vm_compute. reflexivity.
Defined.

(** X8. The listing of GET /api/candidates follows the candidate
    requests: a request answered 201 adds exactly one candidate at the
    end of the listing, and a request answered otherwise leaves the
    listing as it was. *)
Theorem X8_listing_follows_candidate_requests
    {D S : Type} `{!BlobStore D} (w w' : World D S)
    (req : gmap string value) (file : option File) (resp : Response) :
  post_api_candidates w req file = (resp, w') →
  (status resp = 201 →
     ∃ candidate,
       candidates (db w') = candidates (db w) ++ [candidate]
       ∧ listing (get_api_candidates w').1
         = listing (get_api_candidates w).1 ++ [toJSON candidate])
  ∧ (status resp ≠ 201 →
     listing (get_api_candidates w').1 = listing (get_api_candidates w).1).
Proof.
  intros H.
  assert (∀ v : World D S,
            listing (get_api_candidates v).1 = toJSON <$> candidates (db v)) as L.
  { intros v. unfold get_api_candidates, listing. cbn [fst status body].
    f_equal. apply list_eq. intros i. rewrite !list_lookup_fmap.
    by destruct (candidates (db v) !! i). }
  split; intros Hs; rewrite !L.
  - destruct (post_api_candidates_created _ _ _ _ _ H Hs) as (obj & Hc & _).
    eexists. split; [exact Hc|]. by rewrite Hc, fmap_app.
  - by rewrite (post_api_candidates_not_created _ _ _ _ _ H Hs).
Qed.

Lemma X8_witness :
  ∃ candidate,
    candidates (db world2) = candidates (db world1) ++ [candidate]
    ∧ listing (get_api_candidates world2).1
      = listing (get_api_candidates world1).1 ++ [toJSON candidate].
Proof.
  assert (post_api_candidates world1 ann_form None
          = ((post_api_candidates world1 ann_form None).1, world2)) as H
    by reflexivity.
  apply (proj1 (X8_listing_follows_candidate_requests world1 world2 ann_form
                  None _ H)).
  reflexivity.
Defined.

Lemma find_app_found {A} (f : A → bool) (l l' : list A) (x : A) :
  find f l = Some x → find f (l ++ l') = Some x.
Proof.
  induction l as [|a l IH]; simpl; [done|].
  destruct (f a); [done | apply IH].
Qed.

(** X9. Candidates are never changed and the first match is the one
    read: once GET /api/getCandidate answers 200 for a [candidateId],
    no later candidate request, whatever it submits and however it
    ends, changes that answer. *)
Theorem X9_candidate_answer_is_stable
    {D S : Type} `{!BlobStore D} (w w' : World D S)
    (req : gmap string value) (file : option File) (resp : Response)
    (cid : string) :
  status (get_api_getCandidate w cid).1 = 200 →
  post_api_candidates w req file = (resp, w') →
  (get_api_getCandidate w' cid).1 = (get_api_getCandidate w cid).1.
Proof.
  intros Hg H. unfold get_api_getCandidate, findOne in *.
  destruct (find _ (candidates (db w))) as [c|] eqn:F; [|done].
  assert (find (λ d, field_is d "candidateId" cid) (candidates (db w'))
          = Some c) as ->; [|by rewrite !populate_candidate_jobId].
  destruct (decide (status resp = 201)) as [Hs|Hs].
  - destruct (post_api_candidates_created _ _ _ _ _ H Hs) as (obj & -> & _).
    by apply find_app_found.
  - by rewrite (post_api_candidates_not_created _ _ _ _ _ H Hs).
Qed.

Lemma X9_witness :
  (get_api_getCandidate world3 "C1").1 = (get_api_getCandidate world2 "C1").1.
Proof.
  assert (post_api_candidates world2 bob_form None
          = ((post_api_candidates world2 bob_form None).1, world3)) as H
    by reflexivity.
  apply (X9_candidate_answer_is_stable world2 world3 bob_form None
           (post_api_candidates world2 bob_form None).1 "C1");
    [vm_compute; reflexivity | exact H].
Defined.

(** ** Evaluations: saving and reading back *)

Section MoreEvaluations.

Context {D S : Type}.
Implicit Types (w : World D S).


(** Saving never removes or reorders what is stored. *)
Lemma saveEvaluation_appends w req :
  ∃ new, evaluations (db (post_api_saveEvaluation w req).2)
         = evaluations (db w) ++ new.
Proof.
  unfold post_api_saveEvaluation.
  destruct (JS.not _ || JS.not _); [exists []; by rewrite app_nil_r|].
  destruct (save evaluationSchema _ _) as [es|] eqn:Sv.
  - apply save_inv in Sv as [-> _]. by eexists [_].
  - exists []. by rewrite app_nil_r.
Qed.

End MoreEvaluations.



(** X11. Evaluations are never replaced: once GET /api/getEvaluation
    answers 200 for a candidate, saving further evaluations, for that
    candidate or another, never changes the answer; the first one saved
    is the one read. *)
Theorem X11_first_evaluation_is_the_one_read
    {D S : Type} (w : World D S) (req : gmap string value) (cid : string) :
  status (get_api_getEvaluation w cid).1 = 200 →
  (get_api_getEvaluation (post_api_saveEvaluation w req).2 cid).1
  = (get_api_getEvaluation w cid).1.
Proof.
  intros Hg. unfold get_api_getEvaluation, findOne in *.
  destruct (saveEvaluation_appends w req) as [new ->].
  destruct (find _ (evaluations (db w))) as [e|] eqn:F; [|done].
  by rewrite (find_app_found _ _ new e F).
Qed.

Lemma X11_witness :
  (get_api_getEvaluation (post_api_saveEvaluation world4 second_evaluation).2
     "C1").1
  = (get_api_getEvaluation world4 "C1").1.
Proof.
  apply (X11_first_evaluation_is_the_one_read world4 second_evaluation "C1").
  vm_compute. reflexivity.
Defined.

(** Both evaluations of C1 are stored, and the first is the one read. *)
Example two_evaluations_for_one_candidate :
  length (evaluations (db (post_api_saveEvaluation world4 second_evaluation).2))
  = 2%nat
  ∧ properties (get_api_getEvaluation
                  (post_api_saveEvaluation world4 second_evaluation).2 "C1").1
      !! "evaluationResults"
    = Some (Arr [Str "strong"]).
Proof. split; vm_compute; reflexivity. Qed.

(** X12. A [candidateId] that is a list passes the presence check, for
    a list is truthy, but cannot be stored as a String: the answer is
    500, not 400, and nothing is saved. *)
Theorem X12_list_candidateId_is_500
    {D S : Type} (w : World D S) (req : gmap string value) (l : list value) :
  req !! "candidateId" = Some (Arr l) →
  truthy (get req "evaluationResults") = true →
  status (post_api_saveEvaluation w req).1 = 500
  ∧ evaluations (db (post_api_saveEvaluation w req).2) = evaluations (db w).
Proof.
  intros Hc He. unfold post_api_saveEvaluation, JS.not.
  rewrite (get_present _ _ _ Hc), He. cbn [truthy negb orb].
  unfold save.
  rewrite (validate_fails evaluationSchema _ _ _
             ("candidateId", required_path SString)); [done | |done].
  apply list_elem_of_In. simpl. tauto.
Qed.

Lemma X12_witness :
  status (post_api_saveEvaluation world0
            (object [ ("candidateId", Arr [Str "C1"]);
                      ("evaluationResults", Arr [Str "good"]) ])).1 = 500
  ∧ evaluations (db (post_api_saveEvaluation world0
                       (object [ ("candidateId", Arr [Str "C1"]);
                                 ("evaluationResults", Arr [Str "good"]) ])).2)
    = evaluations (db world0).
Proof.
  apply (X12_list_candidateId_is_500 world0 _ [Str "C1"]); reflexivity.
Defined.

(** X13. Results that are not a list are saved as the one-element list
    holding them: with a text [candidateId], a truthy [evaluationResults]
    that is not a list and no [ScoresFactor], the answer is 201. *)
Theorem X13_single_result_is_saved_as_a_list
    {D S : Type} (w : World D S) (req : gmap string value)
    (s : string) (v : value) :
  req !! "candidateId" = Some (Str s) → s ≠ "" →
  req !! "evaluationResults" = Some v →
  truthy v = true → isArray v = false →
  req !! "ScoresFactor" = None →
  ∃ doc,
    status (post_api_saveEvaluation w req).1 = 201
    ∧ evaluations (db (post_api_saveEvaluation w req).2)
      = evaluations (db w) ++ [doc]
    ∧ doc_fields doc !! "evaluationResults" = Some (BVal (Arr [v])).
Proof.
  intros Hc Hs He Ht Ha Hf.
  unfold post_api_saveEvaluation, JS.not.
  rewrite (get_present _ _ _ Hc), (get_present _ _ _ He), (get_absent _ _ Hf).
  rewrite Ht. destruct s as [|c s]; [done|]. cbn [truthy negb orb String.eqb].
  destruct v; try discriminate Ht; try discriminate Ha;
    (eexists; split; [reflexivity|]; split; reflexivity).
Qed.

Lemma X13_witness :
  ∃ doc,
    status (post_api_saveEvaluation world0
              (object [ ("candidateId", Str "C1");
                        ("evaluationResults", Str "good") ])).1 = 201
    ∧ evaluations (db (post_api_saveEvaluation world0
                         (object [ ("candidateId", Str "C1");
                                   ("evaluationResults", Str "good") ])).2)
      = evaluations (db world0) ++ [doc]
    ∧ doc_fields doc !! "evaluationResults" = Some (BVal (Arr [Str "good"])).
Proof.
  apply (X13_single_result_is_saved_as_a_list world0 _ "C1" (Str "good"));
    [reflexivity | discriminate | reflexivity..].
Defined.

(** X14. A [ScoresFactor] that is [null] is not defaulted: the handler
    lets it through, the store requires the path, and the answer is 500
    with nothing saved (an omitted [ScoresFactor] is saved as the empty
    list). *)
Theorem X14_null_ScoresFactor_is_500
    {D S : Type} (w : World D S) (req : gmap string value)
    (s : string) (l : list value) :
  req !! "candidateId" = Some (Str s) → s ≠ "" →
  req !! "evaluationResults" = Some (Arr l) →
  req !! "ScoresFactor" = Some Null →
  status (post_api_saveEvaluation w req).1 = 500
  ∧ evaluations (db (post_api_saveEvaluation w req).2) = evaluations (db w).
Proof.
  intros Hc Hs He Hf.
  unfold post_api_saveEvaluation.
  rewrite (get_present _ _ _ Hc), (get_present _ _ _ He), (get_present _ _ _ Hf).
  destruct s as [|c s]; [done|].
  split; reflexivity.
Qed.

Lemma X14_witness :
  status (post_api_saveEvaluation world0
            (object [ ("candidateId", Str "C1");
                      ("evaluationResults", Arr [Str "good"]);
                      ("ScoresFactor", Null) ])).1 = 500
  ∧ evaluations (db (post_api_saveEvaluation world0
                       (object [ ("candidateId", Str "C1");
                                 ("evaluationResults", Arr [Str "good"]);
                                 ("ScoresFactor", Null) ])).2)
    = evaluations (db world0).
Proof.
  apply (X14_null_ScoresFactor_is_500 world0 _ "C1" [Str "good"]);
    [reflexivity | discriminate | reflexivity..].
Defined.

(** ** The assessment and survey rows *)

Lemma assessment_row_cell (req : gmap string value) (i : nat) (column : string) :
  assessment_columns !! i = Some column →
  assessment_row req !! i = Some (or (get req column) not_specified).
Proof.
  intros Hi.
  repeat (destruct i as [|i]; [injection Hi as <-; reflexivity | simpl in Hi]).
  done.
Qed.

Lemma survey_row_cell (req : gmap string value) (i : nat) (column : string) :
  survey_columns !! i = Some column →
  survey_row req !! i = Some (or (get req column) not_specified).
Proof.
  intros Hi.
  repeat (destruct i as [|i]; [injection Hi as <-; reflexivity | simpl in Hi]).
  done.
Qed.

Section SheetCalls.

Context {D S : Type} `{!RowAppender S}.
Implicit Types (w : World D S) (req : gmap string value).

(** Each of the two handlers makes one call to the provider, with the
    request built from the body, answers by its outcome and keeps the
    provider's new state; nothing else of the world changes. *)
Lemma post_api_assessmentosheet_call w req :
  ∃ ok s',
    values_append (sheets w) (assessment_append req) = (ok, s')
    ∧ status (post_api_assessmentosheet w req).1 = (if ok then 200 else 500)
    ∧ sheets (post_api_assessmentosheet w req).2 = s'
    ∧ drive (post_api_assessmentosheet w req).2 = drive w
    ∧ db (post_api_assessmentosheet w req).2 = db w
    ∧ now (post_api_assessmentosheet w req).2 = now w.
Proof.
  unfold post_api_assessmentosheet.
  destruct (values_append (sheets w) (assessment_append req)) as [ok s'] eqn:E.
  exists ok, s'. by destruct ok.
Qed.

Lemma post_api_submitForm_call w req :
  ∃ ok s',
    values_append (sheets w) (survey_append req) = (ok, s')
    ∧ status (post_api_submitForm w req).1 = (if ok then 200 else 500)
    ∧ sheets (post_api_submitForm w req).2 = s'
    ∧ drive (post_api_submitForm w req).2 = drive w
    ∧ db (post_api_submitForm w req).2 = db w
    ∧ now (post_api_submitForm w req).2 = now w.
Proof.
  unfold post_api_submitForm.
  destruct (values_append (sheets w) (survey_append req)) as [ok s'] eqn:E.
  exists ok, s'. by destruct ok.
Qed.

End SheetCalls.

(** X15. The assessment handler makes one append call, to [Sheet2] of
    the fixed spreadsheet, carrying one row of ten cells: candidateId,
    agreeableness, communicationSkills, conscientiousness,
    criticalThinking, emotionalStability, extroversion,
    leadershipAbility, openness, professionalCultureProfile.  A cell is
    the submitted value when it is truthy (a list is passed as it is, not
    joined) and "Not Specified" when the field is absent or falsy.  The
    answer is 200 when the call succeeds, 500 when it fails; the sheet is
    left as the call left it and nothing else changes. *)
Theorem X15_assessment_row
    {D S : Type} `{!RowAppender S} (w : World D S) (req : gmap string value) :
  ∃ ok s' row,
    values_append (sheets w)
      {| spreadsheetId := "1Ufx8chsZzW2SKYPc_AHueDwJI9B7G6xbzYhk8lJgF5Y";
         range := "Sheet2";
         valueInputOption := "USER_ENTERED";
         resource_values := [row] |} = (ok, s')
    ∧ status (post_api_assessmentosheet w req).1 = (if ok then 200 else 500)
    ∧ sheets (post_api_assessmentosheet w req).2 = s'
    ∧ drive (post_api_assessmentosheet w req).2 = drive w
    ∧ db (post_api_assessmentosheet w req).2 = db w
    ∧ now (post_api_assessmentosheet w req).2 = now w
    ∧ length row = 10%nat
    ∧ ∀ i column, assessment_columns !! i = Some column →
        (req !! column = None → row !! i = Some (Str "Not Specified"))
        ∧ (∀ v, req !! column = Some v → truthy v = false →
             row !! i = Some (Str "Not Specified"))
        ∧ (∀ v, req !! column = Some v → truthy v = true → row !! i = Some v).
Proof.
  destruct (post_api_assessmentosheet_call w req)
    as (ok & s' & E & Hst & Hsh & Hdr & Hdb & Hnow).
  exists ok, s', (assessment_row req).
  split; [exact E|].
  do 5 (split; [assumption|]).
  split; [reflexivity|].
  intros i column Hi. rewrite (assessment_row_cell _ _ _ Hi).
  split; [|split].
  - intros H. by rewrite (get_absent _ _ H).
  - intros v Hv Hf. rewrite (get_present _ _ _ Hv). by rewrite or_falsy.
  - intros v Hv Ht. rewrite (get_present _ _ _ Hv). by rewrite or_truthy.
Qed.

(** X16. The survey handler makes one append call, to [Sheet3] of the
    fixed spreadsheet, carrying one row of eleven cells: q1, q1Details,
    q2, q3, q3Details, q4, q4Details, q5, q6, q6Details, q7.  A cell is
    the submitted value when it is truthy and "Not Specified" when the
    field is absent or falsy.  The answer is 200 when the call succeeds,
    500 when it fails; the sheet is left as the call left it and nothing
    else changes. *)
Theorem X16_survey_row
    {D S : Type} `{!RowAppender S} (w : World D S) (req : gmap string value) :
  ∃ ok s' row,
    values_append (sheets w)
      {| spreadsheetId := "1Ufx8chsZzW2SKYPc_AHueDwJI9B7G6xbzYhk8lJgF5Y";
         range := "Sheet3";
         valueInputOption := "USER_ENTERED";
         resource_values := [row] |} = (ok, s')
    ∧ status (post_api_submitForm w req).1 = (if ok then 200 else 500)
    ∧ sheets (post_api_submitForm w req).2 = s'
    ∧ drive (post_api_submitForm w req).2 = drive w
    ∧ db (post_api_submitForm w req).2 = db w
    ∧ now (post_api_submitForm w req).2 = now w
    ∧ length row = 11%nat
    ∧ ∀ i column, survey_columns !! i = Some column →
        (req !! column = None → row !! i = Some (Str "Not Specified"))
        ∧ (∀ v, req !! column = Some v → truthy v = false →
             row !! i = Some (Str "Not Specified"))
        ∧ (∀ v, req !! column = Some v → truthy v = true → row !! i = Some v).
Proof.
  destruct (post_api_submitForm_call w req)
    as (ok & s' & E & Hst & Hsh & Hdr & Hdb & Hnow).
  exists ok, s', (survey_row req).
  split; [exact E|].
  do 5 (split; [assumption|]).
  split; [reflexivity|].
  intros i column Hi. rewrite (survey_row_cell _ _ _ Hi).
  split; [|split].
  - intros H. by rewrite (get_absent _ _ H).
  - intros v Hv Hf. rewrite (get_present _ _ _ Hv). by rewrite or_falsy.
  - intros v Hv Ht. rewrite (get_present _ _ _ Hv). by rewrite or_truthy.
Qed.

(** The rows of an assessment and of a survey in the memory sheet. *)
Example assessment_and_survey_rows :
  sheets (post_api_assessmentosheet world0
            (object [ ("candidateId", Str "C1");
                      ("openness", Num (Number.of_Z 7));
                      ("extroversion", Num Number.zero) ])).2
  = [ ("1Ufx8chsZzW2SKYPc_AHueDwJI9B7G6xbzYhk8lJgF5Y", "Sheet2",
       [ Str "C1"; Str "Not Specified"; Str "Not Specified";
         Str "Not Specified"; Str "Not Specified"; Str "Not Specified";
         Str "Not Specified"; Str "Not Specified"; Num (Number.of_Z 7);
         Str "Not Specified" ]) ]
  ∧ sheets (post_api_submitForm world0
              (object [ ("q1", Str "yes"); ("q7", Arr [Str "a"; Str "b"]) ])).2
    = [ ("1Ufx8chsZzW2SKYPc_AHueDwJI9B7G6xbzYhk8lJgF5Y", "Sheet3",
         [ Str "yes"; Str "Not Specified"; Str "Not Specified";
           Str "Not Specified"; Str "Not Specified"; Str "Not Specified";
           Str "Not Specified"; Str "Not Specified"; Str "Not Specified";
           Str "Not Specified"; Arr [Str "a"; Str "b"] ]) ].
Proof. by_computation. Qed.

(** ** Lists of strings in the candidate row *)

(** The cells of two skills, of one and of none. *)
Example skills_cells :
  candidate_row (object [("skills", Arr [Str "sql"; Str "go"])]) !! 10%nat
  = Some (Str "sql, go")
  ∧ candidate_row (object [("skills", Arr [Str "sql"])]) !! 10%nat
    = Some (Str "sql")
  ∧ candidate_row (object [("skills", Arr [])]) !! 10%nat = Some (Str "").
Proof. by_computation. Qed.

(** ** The date posted, for every clock *)

Section WrittenDates.
Import Date Calendar.

(** The year of an ISO date, in four digits or with a sign and six. *)
Lemma iso_year_written y : iso_year y = written_year y.
Proof.
  unfold iso_year, written_year.
  destruct (Z.leb_spec 0 y), (Z.leb_spec y 9999); simpl;
    repeat case_decide; try lia;
    destruct (Z.ltb_spec y 0); try lia;
    unfold pad; rewrite !digit_decimal, !Z.div_div by lia; reflexivity.
Qed.

Lemma iso_date_written t :
  iso_date t
  = written_date (YearFromTime t) (MonthFromTime t + 1) (DateFromTime t).
Proof.
  unfold iso_date, written_date. rewrite iso_year_written.
  unfold pad. rewrite !digit_decimal. reflexivity.
Qed.

End WrittenDates.

(** X17. Whatever the clock, the [datePosted] of a created job is the
    date, in UTC, on which the clock stands, as an ISO date writes it:
    [YYYY-MM-DD] for the years 0000 to 9999, and the year with a sign and
    six digits outside them ([+010000-01-01] on the first day of the year
    10000).  The clock is one a Date can hold, within 8.64e15 ms of the
    epoch. *)
Theorem X17_datePosted_for_every_clock
    {D S : Type} `{!BlobStore D} (w w' : World D S)
    (req : gmap string value) (files : option (list File)) (resp : Response)
    (y m d : Z) :
  post_api_jobs w req files = (resp, w') →
  status resp = 201 →
  Z.abs (now w) ≤ 8640000000000000 →
  Calendar.valid_date y m d →
  Calendar.days_from_civil y m d = now w / 86400000 →
  ∃ job,
    jobs (db w') = jobs (db w) ++ [job]
    ∧ doc_fields job !! "datePosted"
      = Some (BVal (Str (Calendar.written_date y m d))).
Proof.
  intros H Hs _ Hv Hc.
  destruct (post_api_jobs_created _ _ _ _ _ H Hs)
    as (fs & links & obj & _ & _ & _ & Hj & _ & _ & _ & Hd).
  destruct (time_of_civil (now w) y m d Hv Hc) as (Y & M & Dt).
  eexists. split; [exact Hj|].
  rewrite today_is_iso_date, iso_date_written, Y, M, Dt in Hd.
  rewrite (new_document_lookup _ _ _ _ "datePosted"
             {| path_type := SString; path_required := false;
                path_default := Some (fun now => BVal (today now));
                path_ref := None |} jobSchema_NoDup).
  - unfold path_value. rewrite Hd. reflexivity.
  - apply list_elem_of_In. simpl. do 13 right. left. reflexivity.
Qed.

Lemma X17_witness :
  ∃ job,
    jobs (db (post_api_jobs far_world job_form (Some job_files)).2)
    = jobs (db far_world) ++ [job]
    ∧ doc_fields job !! "datePosted" = Some (BVal (Str "+010000-01-01")).
Proof.
  apply (X17_datePosted_for_every_clock far_world _ job_form (Some job_files)
           (post_api_jobs far_world job_form (Some job_files)).1 10000 1 1).
  - reflexivity.
  - vm_compute. reflexivity.
  - vm_compute. discriminate.
  - split; [lia|]. vm_compute. split; discriminate.
  - vm_compute. reflexivity.
Defined.

(** Before the year 0 the year is written with a minus sign. *)
Example datePosted_before_year_0 :
  today (-62198755200000) = Str "-000001-01-01"
  ∧ Calendar.days_from_civil (-1) 1 1 = -62198755200000 / 86400000.
Proof. by_computation. Qed.

(** ** What no handler does: touching what is stored *)

Lemma grows_refl (b : DB) : grows b b.
Proof. by repeat split. Qed.

Section AppendOnly.

Context {D S : Type} `{!BlobStore D} `{!RowAppender S}.
Implicit Types (w : World D S).

Lemma post_api_jobs_grows w req files :
  grows (db w) (db (post_api_jobs w req files).2).
Proof.
  unfold post_api_jobs.
  destruct files as [fs|]; [|by repeat split].
  destruct (upload_attachments (drive w) fs []) as [[links|] d'];
    [|by repeat split].
  destruct (save jobSchema _ _) as [jobs'|] eqn:Sv; [|by repeat split].
  apply save_inv in Sv as [-> _].
  split; [by apply prefix_app_r | by split].
Qed.

Lemma post_api_candidates_grows w req file :
  grows (db w) (db (post_api_candidates w req file).2).
Proof.
  unfold post_api_candidates.
  destruct file as [f|].
  - destruct (files_create _ _) as [[link|] d']; [|by repeat split].
    cbn [fmap option_fmap option_map].
    destruct (save candidateSchema _ _) as [cs|] eqn:Sv; [|by repeat split].
    apply save_inv in Sv as [-> _].
    split; [done|]. split; [by apply prefix_app_r | done].
  - destruct (save candidateSchema _ _) as [cs|] eqn:Sv; [|by repeat split].
    apply save_inv in Sv as [-> _].
    split; [done|]. split; [by apply prefix_app_r | done].
Qed.

Lemma post_api_saveEvaluation_grows w req :
  grows (db w) (db (post_api_saveEvaluation w req).2).
Proof.
  unfold post_api_saveEvaluation.
  destruct (JS.not _ || JS.not _); [by repeat split|].
  destruct (save evaluationSchema _ _) as [es|] eqn:Sv; [|by repeat split].
  apply save_inv in Sv as [-> _].
  split; [done|]. split; [done | by apply prefix_app_r].
Qed.

End AppendOnly.

(** X18. No handler removes, reorders or changes a stored job,
    candidate or evaluation: after any request to any of the eleven
    routes, each collection begins with what it held before.  The
    reading routes and the three sheet routes leave the database exactly
    as it was. *)
Theorem X18_stored_documents_are_never_touched
    {D S : Type} `{!BlobStore D} `{!RowAppender S} (w : World D S)
    (req : gmap string value) (files : option (list File))
    (file : option File) (id : string) :
  grows (db w) (db (post_api_jobs w req files).2)
  ∧ grows (db w) (db (post_api_candidates w req file).2)
  ∧ grows (db w) (db (post_api_saveEvaluation w req).2)
  ∧ db (get_api_getJobs w).2 = db w
  ∧ db (get_api_jobs_id w id).2 = db w
  ∧ db (get_api_candidates w).2 = db w
  ∧ db (get_api_getCandidate w id).2 = db w
  ∧ db (get_api_getEvaluation w id).2 = db w
  ∧ db (post_api_candidateToSheet w req).2 = db w
  ∧ db (post_api_assessmentosheet w req).2 = db w
  ∧ db (post_api_submitForm w req).2 = db w.
Proof.
  split; [apply post_api_jobs_grows|].
  split; [apply post_api_candidates_grows|].
  split; [apply post_api_saveEvaluation_grows|].
  split; [reflexivity|].
  split; [unfold get_api_jobs_id; by destruct (findById _ _) as [[?|]|]|].
  split; [reflexivity|].
  split; [unfold get_api_getCandidate; by destruct (findOne _ _ _)|].
  split; [unfold get_api_getEvaluation; by destruct (findOne _ _ _)|].
  split; [unfold post_api_candidateToSheet;
          by destruct (values_append _ _) as [[|] ?]|].
  split; [unfold post_api_assessmentosheet;
          by destruct (values_append _ _) as [[|] ?]|].
  unfold post_api_submitForm. by destruct (values_append _ _) as [[|] ?].
Qed.
